(** * unmanic: the configuration store and the table-query contract

    A shallow embedding of [unmanic/config.py] (class [Config]), of the
    request schemas of [unmanic/webserver/api_v2/schema/schemas.py] and of
    the bulk handlers of [unmanic/webserver/api_v2/plugins_api.py],
    followed by the properties of the specification stated over them.

    Conventions.  Python [str] keys are Rocq strings; [str.lower] is the
    ASCII lower-casing (every declared field name is ASCII).  JSON numbers
    are integers; numbers with a fraction or an exponent are outside the
    model.  The instance dictionary [__dict__] keeps insertion order and is
    an association list without repeated keys. *)

From Stdlib Require Import ZArith String Ascii List Bool Lia.
From stdpp Require Import base option list strings pretty gmap.

#[local] Set Warnings "-register-all".

Local Open Scope Z_scope.
Local Open Scope string_scope.
Local Open Scope list_scope.

(** ** Python values *)

Inductive value : Type :=
| VNone
| VBool (b : bool)
| VInt (z : Z)
| VStr (s : string)
| VList (l : list value)
| VDict (d : list (string * value)).

(** [bool(v)] *)
Definition truthy (v : value) : bool :=
  match v with
  | VNone => false
  | VBool b => b
  | VInt z => negb (z =? 0)%Z
  | VStr s => negb (String.eqb s EmptyString)
  | VList l => match l with [] => false | _ => true end
  | VDict d => match d with [] => false | _ => true end
  end.

Inductive exn : Type :=
| AttributeError (name : string)
| TypeError
| OverflowError
| KeyError (key : string)
| OSError (msg : string)
| Exception (msg : string).

(** What a call comes to: a value handed back, or an exception raised. *)
Inductive result (E A : Type) : Type :=
| Returned (a : A)
| Raised (e : E).
Arguments Returned {E A} a.
Arguments Raised {E A} e.

Abbreviation outcome := (result exn).

(** ** Strings and paths *)

(** [c.lower()] on one ASCII character *)
Definition lower_ascii (c : ascii) : ascii :=
  let n := nat_of_ascii c in
  if ((65 <=? n) && (n <=? 90))%nat then ascii_of_nat (n + 32) else c.

(** [s.lower()] on ASCII text: the letters A to Z are lowered and every
    other character is kept.  On a string for which [isascii] holds this
    is [str.lower]; beyond ASCII [str.lower] follows the Unicode tables
    (the Kelvin sign U+212A lowers to k), which this function leaves
    out. *)
Fixpoint lower (s : string) : string :=
  match s with
  | EmptyString => EmptyString
  | String c s' => String (lower_ascii c) (lower s')
  end.

(** [s.isascii()] *)
Fixpoint isascii (s : string) : bool :=
  match s with
  | EmptyString => true
  | String c s' => (nat_of_ascii c <? 128)%nat && isascii s'
  end.

Fixpoint ends_with_sep (s : string) : bool :=
  match s with
  | EmptyString => false
  | String c EmptyString => Ascii.eqb c "/"%char
  | String _ s' => ends_with_sep s'
  end.

Definition starts_with_sep (s : string) : bool :=
  match s with
  | String c _ => Ascii.eqb c "/"%char
  | EmptyString => false
  end.

(** [os.path.join(a, b)] (posixpath) *)
Definition path_join (a b : string) : string :=
  if starts_with_sep b then b
  else if String.eqb a EmptyString || ends_with_sep a then a +:+ b
  else a +:+ "/" +:+ b.

(** [needle in hay] on two strings *)
Fixpoint is_substring (needle hay : string) : bool :=
  String.prefix needle hay ||
  match hay with
  | EmptyString => false
  | String _ hay' => is_substring needle hay'
  end.

(** ** Dictionaries in insertion order *)

Definition attrs : Type := list (string * value).

Fixpoint dict_get (k : string) (d : attrs) : option value :=
  match d with
  | [] => None
  | (k', v) :: d' => if String.eqb k' k then Some v else dict_get k d'
  end.

Definition dict_keys (d : attrs) : list string := map fst d.

Definition key_in (k : string) (ks : list string) : bool :=
  existsb (String.eqb k) ks.

(** [setattr(self, k, v)] on the instance dictionary: an existing key keeps
    its place, a new one goes last. *)
Fixpoint setattr (d : attrs) (k : string) (v : value) : attrs :=
  match d with
  | [] => [(k, v)]
  | (k', v') :: d' =>
      if String.eqb k' k then (k', v) :: d' else (k', v') :: setattr d' k v
  end.

(** [k in items], for the JSON values [items] can be *)
Definition py_contains (k : string) (items : value) : outcome bool :=
  match items with
  | VDict d => Returned (key_in k (dict_keys d))
  | VList l =>
      Returned (existsb (fun x => match x with VStr s => String.eqb s k | _ => false end) l)
  | VStr s => Returned (is_substring k s)
  | VNone | VBool _ | VInt _ => Raised TypeError
  end.

(** [items[k]] with a string subscript *)
Definition py_getitem (k : string) (items : value) : outcome value :=
  match items with
  | VDict d => match dict_get k d with
               | Some v => Returned v
               | None => Raised (KeyError k)
               end
  | _ => Raised TypeError
  end.

(** ** The process around the store *)

(** What is at a path: a directory, or a file with what [json.load] makes
    of it ([Unreadable] when [open] or [json.load] raises). *)
Inductive content : Type :=
| Json (v : value)
| Unreadable (err : string).

Inductive node : Type :=
| Dir
| File (c : content).

Record dump_result : Type := { success : bool; errors : list string }.

Inductive event : Type :=
| Logged (level message message2 : string)
| Dumped (data : attrs) (settings_file : string)
| LoggerSetup (config : attrs).

Record world : Type := {
  files : gmap string node;
  environ : gmap string string;
  events : list event
}.

(** The collaborators outside [src/]: [common.get_home_dir],
    [common.json_dump_to_file], and [os.makedirs] of the host. *)
Class Platform : Type := {
  get_home_dir : string;
  makedirs : string -> gmap string node -> exn + gmap string node;
  json_dump_to_file : attrs -> string -> gmap string node -> dump_result * gmap string node
}.

(** Code that threads a state of type [S] and may raise an [E]. *)
Definition prog (E S A : Type) : Type := S -> result E A * S.

Definition ret {E S A} (a : A) : prog E S A := fun st => (Returned a, st).
Definition raise {E S A} (e : E) : prog E S A := fun st => (Raised e, st).
Definition bind {E S A B} (m : prog E S A) (k : A -> prog E S B) : prog E S B :=
  fun st => match m st with
            | (Returned a, st') => k a st'
            | (Raised e, st') => (Raised e, st')
            end.
Definition lift {E S A} (o : result E A) : prog E S A := fun st => (o, st).

(** [try: m except e: handler e] *)
Definition try_except {E S A} (m : prog E S A) (handler : E -> prog E S A) : prog E S A :=
  fun st => match m st with
            | (Returned a, st') => (Returned a, st')
            | (Raised e, st') => handler e st'
            end.

Record state : Type := { self : attrs; outside : world }.

Definition M (A : Type) : Type := prog exn state A.

Declare Scope py_scope.
Delimit Scope py_scope with py.
Notation "'let*' x ':=' m 'in' k" := (bind m (fun x => k))
  (at level 10, x name, m at level 100, k at level 200) : py_scope.
Notation "m1 '>>' m2" := (bind m1 (fun _ => m2))
  (at level 61, left associativity) : py_scope.
Local Open Scope py_scope.

Fixpoint for_each {E S A} (l : list A) (body : A -> prog E S unit) : prog E S unit :=
  match l with
  | [] => ret tt
  | x :: l' => body x >> for_each l' body
  end.

Definition emit (e : event) : M unit := fun st =>
  (Returned tt,
   {| self := self st;
      outside := {| files := files (outside st);
                    environ := environ (outside st);
                    events := events (outside st) ++ [e] |} |}).

Definition set_files (fs : gmap string node) : M unit := fun st =>
  (Returned tt,
   {| self := self st;
      outside := {| files := fs;
                    environ := environ (outside st);
                    events := events (outside st) |} |}).

Definition set_self (d : attrs) : M unit := fun st =>
  (Returned tt, {| self := d; outside := outside st |}).

(** ** class Config *)

Module Config.
Section WithPlatform.
Context `{Platform}.

(** The attributes [__init__] assigns, in order, before any overlay. *)
Definition defaults : attrs :=
  [ ("ui_port", VInt 8888);
    ("config_path", VStr (path_join (path_join get_home_dir ".unmanic") "config"));
    ("log_path", VStr (path_join (path_join get_home_dir ".unmanic") "logs"));
    ("plugins_path", VStr (path_join (path_join get_home_dir ".unmanic") "plugins"));
    ("userdata_path", VStr (path_join (path_join get_home_dir ".unmanic") "userdata"));
    ("debugging", VBool false);
    ("library_path", VStr (path_join "/" "library"));
    ("enable_library_scanner", VBool false);
    ("schedule_full_scan_minutes", VInt 1440);
    ("follow_symlinks", VBool true);
    ("run_full_scan_on_start", VBool false);
    ("enable_inotify", VBool false);
    ("number_of_workers", VInt 1);
    ("cache_path", VStr (path_join (path_join "/" "tmp") "unmanic")) ].

(** The fields declared at construction. *)
Definition declared_fields : list string :=
  [ "ui_port"; "config_path"; "log_path"; "plugins_path"; "userdata_path";
    "debugging"; "library_path"; "enable_library_scanner";
    "schedule_full_scan_minutes"; "follow_symlinks"; "run_full_scan_on_start";
    "enable_inotify"; "number_of_workers"; "cache_path" ].

(** [_log]: [get_logger] of [unmanic.libs.unlogger] (outside [src/]) hands
    back a [logging.Logger], which is truthy, so the message goes to the
    logger at the given level; the [print] fallback is not reached. *)
Definition _log (message message2 level : string) : M unit :=
  emit (Logged level message message2).

Definition get_config_as_dict : M attrs := fun st => (Returned (self st), st).

Definition get_config_keys : M (list string) :=
  let* d := get_config_as_dict in ret (dict_keys d).

(** [self.<name>] for a name that is no class attribute *)
Definition getattr (name : string) : M value := fun st =>
  match dict_get name (self st) with
  | Some v => (Returned v, st)
  | None => (Raised (AttributeError name), st)
  end.

Definition get_ui_port : M value := getattr "ui_port".
Definition get_cache_path : M value := getattr "cache_path".
Definition get_config_path : M value := getattr "config_path".
Definition get_debugging : M value := getattr "debugging".
Definition get_enable_inotify : M value := getattr "enable_inotify".
Definition get_library_path : M value := getattr "library_path".
Definition get_log_path : M value := getattr "log_path".
Definition get_number_of_workers : M value := getattr "number_of_workers".
Definition get_enable_library_scanner : M value := getattr "enable_library_scanner".
Definition get_run_full_scan_on_start : M value := getattr "run_full_scan_on_start".
Definition get_schedule_full_scan_minutes : M value := getattr "schedule_full_scan_minutes".
Definition get_follow_symlinks : M value := getattr "follow_symlinks".
Definition get_plugins_path : M value := getattr "plugins_path".

(** A path argument of [os.makedirs] and [os.path.join]: anything but a
    [str] is refused with a [TypeError]. *)
Definition as_path (v : value) : M string :=
  match v with
  | VStr s => ret s
  | _ => raise TypeError
  end.

(** The range of a C [int], in which [os.stat] takes a file descriptor. *)
Definition fits_c_int (z : Z) : bool := ((-2147483648 <=? z) && (z <=? 2147483647))%Z.

(** The argument of [os.path.exists] when the call that follows takes it
    as a path again.  [os.stat] reads an integer as a file descriptor:
    one outside the range of a C [int] raises [OverflowError], which
    [os.path.exists] lets through; a boolean or an integer in that range
    is answered (the descriptor is open or not) and the [os.makedirs] or
    [os.path.join] that follows raises [TypeError]; [None], a list and a
    dict raise [TypeError] in [os.stat] itself.  Nothing is touched before
    either exception. *)
Definition as_stat_path (v : value) : M string :=
  match v with
  | VStr s => ret s
  | VInt z => if fits_c_int z then raise TypeError else raise OverflowError
  | _ => raise TypeError
  end.

Definition os_path_exists (p : string) : M bool := fun st =>
  (Returned (bool_decide (is_Some (files (outside st) !! p))), st).

Definition os_makedirs (p : string) : M unit := fun st =>
  match makedirs p (files (outside st)) with
  | inl e => (Raised e, st)
  | inr fs => set_files fs st
  end.

Definition dump (data : attrs) (settings_file : string) : M dump_result :=
  fun st =>
    let '(r, fs) := json_dump_to_file data settings_file (files (outside st)) in
    (emit (Dumped data settings_file) >> set_files fs >> ret r) st.

(** [__write_settings_to_file] *)
Definition __write_settings_to_file : M unit :=
  let* p := bind get_config_path as_stat_path in
  let* there := os_path_exists p in
  (if there then ret tt else
     let* p' := bind get_config_path as_path in os_makedirs p') >>
  let* p' := bind get_config_path as_path in
  let settings_file := path_join p' "settings.json" in
  let* data := get_config_as_dict in
  let* result := dump data settings_file in
  if success result then ret tt
  else
    for_each (errors result) (fun message => _log "Exception:" message "exception") >>
    raise (Exception "Exception in writing settings to file").

(** What a call of [get_config_item] can hand back. *)
Inductive pyobj : Type :=
| OValue (v : value)
| OKeys (ks : list string).

(** The methods of the class whose name starts with [get_], as
    [getattr(self, name)] followed by a call without arguments sees them. *)
Definition call_getter (name : string) : option (M pyobj) :=
  let field (g : M value) := Some (let* v := g in ret (OValue v)) in
  if String.eqb name "get_config_as_dict" then
    Some (let* d := get_config_as_dict in ret (OValue (VDict d)))
  else if String.eqb name "get_config_keys" then
    Some (let* ks := get_config_keys in ret (OKeys ks))
  else if String.eqb name "get_config_item" then Some (raise TypeError)
  else if String.eqb name "get_ui_port" then field get_ui_port
  else if String.eqb name "get_cache_path" then field get_cache_path
  else if String.eqb name "get_config_path" then field get_config_path
  else if String.eqb name "get_debugging" then field get_debugging
  else if String.eqb name "get_enable_inotify" then field get_enable_inotify
  else if String.eqb name "get_library_path" then field get_library_path
  else if String.eqb name "get_log_path" then field get_log_path
  else if String.eqb name "get_number_of_workers" then field get_number_of_workers
  else if String.eqb name "get_enable_library_scanner" then field get_enable_library_scanner
  else if String.eqb name "get_run_full_scan_on_start" then field get_run_full_scan_on_start
  else if String.eqb name "get_schedule_full_scan_minutes" then
    field get_schedule_full_scan_minutes
  else if String.eqb name "get_follow_symlinks" then field get_follow_symlinks
  else if String.eqb name "get_plugins_path" then field get_plugins_path
  else None.

(** [get_config_item]: an instance attribute of that name is plain data and
    not callable; without a getter the method falls off its end and hands
    back [None]. *)
Definition get_config_item (key : string) : M pyobj := fun st =>
  let name := "get_" +:+ key in
  match dict_get name (self st) with
  | Some _ => (Returned (OValue VNone), st)
  | None =>
      match call_getter name with
      | Some getter => getter st
      | None => (Returned (OValue VNone), st)
      end
  end.

(** [set_config_item] *)
Definition set_config_item (key : string) (v : value) (save_settings : bool) : M unit :=
  let field_id := lower key in
  let* keys := get_config_keys in
  if negb (key_in field_id keys) then
    _log "Attempting to save unknown key" key "warning"
  else
    (let* d := get_config_as_dict in set_self (setattr d key v)) >>
    if save_settings then __write_settings_to_file else ret tt.

(** [set_bulk_config_items]; the loop runs over the keys the snapshot has
    when it starts, which no call in its body changes. *)
Definition set_bulk_config_items (items : value) (save_settings : bool) : M unit :=
  let* config_keys := get_config_keys in
  for_each config_keys (fun config_key =>
    let* present := lift (py_contains config_key items) in
    if present then
      let* v := lift (py_getitem config_key items) in
      set_config_item config_key v save_settings
    else ret tt).

(** [__import_settings_from_env] *)
Definition __import_settings_from_env : M unit :=
  let* keys := get_config_keys in
  for_each keys (fun setting => fun st =>
    match environ (outside st) !! setting with
    | Some s => set_config_item setting (VStr s) false st
    | None => (Returned tt, st)
    end).

(** [json.load] of the settings file inside the [try]: any exception is
    logged and leaves [data = {}]. *)
Definition load_settings (settings_file : string) : M value := fun st =>
  let failed (err : string) :=
    (_log "Exception in reading saved settings from file:" err "exception" >>
     ret (VDict [])) st in
  match files (outside st) !! settings_file with
  | Some (File (Json v)) => (Returned v, st)
  | Some (File (Unreadable err)) => failed err
  | Some Dir => failed ("[Errno 21] Is a directory: '" +:+ settings_file +:+ "'")
  | None => failed ("[Errno 2] No such file or directory: '" +:+ settings_file +:+ "'")
  end.

(** [not config_path] for the constructor argument *)
Definition given (config_path : option string) : option string :=
  match config_path with
  | Some p => if String.eqb p EmptyString then None else Some p
  | None => None
  end.

(** [__import_settings_from_file] *)
Definition __import_settings_from_file (config_path : option string) : M unit :=
  let* config_path :=
    match given config_path with
    | Some p => ret p
    | None => bind get_config_path as_stat_path
    end in
  let* there := os_path_exists config_path in
  (if there then ret tt else os_makedirs config_path) >>
  let settings_file := path_join config_path "settings.json" in
  let* there := os_path_exists settings_file in
  if there then
    let* data := load_settings settings_file in
    set_bulk_config_items data false
  else ret tt.

(** [kwargs.get(name)] *)
Definition kwargs_get (name : string) (kwargs : attrs) : value :=
  match dict_get name kwargs with
  | Some v => v
  | None => VNone
  end.

(** [__setup_unmanic_logger]: the configuration goes to the global logger *)
Definition __setup_unmanic_logger : M unit :=
  let* d := get_config_as_dict in emit (LoggerSetup d).

(** [__init__] on a fresh instance *)
Definition __init__ (config_path : option string) (kwargs : attrs) : M unit :=
  set_self defaults >>
  __import_settings_from_env >>
  __import_settings_from_file config_path >>
  match given config_path with
  | Some p => set_config_item "config_path" (VStr p) false
  | None => ret tt
  end >>
  (if truthy (kwargs_get "unmanic_path" kwargs) then
     (let* p := as_path (kwargs_get "unmanic_path" kwargs) in
      set_config_item "config_path" (VStr (path_join p "config")) false) >>
     (let* p := as_path (kwargs_get "unmanic_path" kwargs) in
      set_config_item "plugins_path" (VStr (path_join p "plugins")) false) >>
     (let* p := as_path (kwargs_get "unmanic_path" kwargs) in
      set_config_item "userdata_path" (VStr (path_join p "userdata")) false)
   else ret tt) >>
  (if truthy (kwargs_get "port" kwargs) then
     set_config_item "ui_port" (kwargs_get "port" kwargs) false
   else ret tt) >>
  __setup_unmanic_logger.

End WithPlatform.
End Config.

(** ** Hosts to run the model on *)

(** A host whose directories can always be made and whose every dump is
    written. *)
Definition sound_host (home : string) : Platform :=
  {| get_home_dir := home;
     makedirs p fs := inr (<[p := Dir]> fs);
     json_dump_to_file data settings_file fs :=
       ({| success := true; errors := [] |},
        <[settings_file := File (Json (VDict data))]> fs) |}.

(** A host on which no settings file can be written. *)
Definition readonly_host (home : string) : Platform :=
  {| get_home_dir := home;
     makedirs p fs := inr (<[p := Dir]> fs);
     json_dump_to_file data settings_file fs :=
       ({| success := false; errors := ["[Errno 30] Read-only file system"] |}, fs) |}.

Definition fresh (fs : gmap string node) (env : gmap string string) : state :=
  {| self := []; outside := {| files := fs; environ := env; events := [] |} |}.

(** * The table-query contract *)

Module Api.

(** ** Request schemas (marshmallow) *)

Inductive kind : Type :=
| Int
| Str
| ListOf (inner : kind).

Inductive validator : Type :=
| OneOf (choices : list string)
| Length (min : nat).

Record field : Type := {
  name : string;
  ftype : kind;
  required : bool;
  load_default : option value;
  validate : list validator
}.

(** The messages of a [ValidationError] for one field: plain, or by index
    for the elements of a list. *)
Inductive messages : Type :=
| Messages (l : list string)
| ByIndex (l : list (nat * messages)).

Definition is_space (c : ascii) : bool :=
  let n := nat_of_ascii c in
  ((9 <=? n) && (n <=? 13) || (28 <=? n) && (n <=? 32))%nat.

Fixpoint lstrip (s : string) : string :=
  match s with
  | String c s' => if is_space c then lstrip s' else s
  | EmptyString => EmptyString
  end.

Definition strip (s : string) : string :=
  String.rev (lstrip (String.rev (lstrip s))).

Definition digit_of (c : ascii) : option Z :=
  let n := nat_of_ascii c in
  if ((48 <=? n) && (n <=? 57))%nat then Some (Z.of_nat (n - 48)) else None.

(** Decimal digits, single underscores between them allowed. *)
Fixpoint digits (s : string) (acc : Z) (after_digit : bool) : option Z :=
  match s with
  | EmptyString => if after_digit then Some acc else None
  | String c s' =>
      match digit_of c with
      | Some d => digits s' (10 * acc + d) true
      | None => if Ascii.eqb c "_"%char && after_digit then digits s' acc false else None
      end
  end.

(** [int(s)] on an ASCII string within the interpreter's limit on
    digits; [None] stands for [ValueError].  Decimal digits of other
    scripts, which [int] reads as well, and the limit itself (4300 digits
    where the interpreter sets one) are left out: no property below turns
    on a string in an integer field. *)
Definition py_int (s : string) : option Z :=
  match strip s with
  | String "+" r => digits r 0 false
  | String "-" r => Z.opp <$> digits r 0 false
  | t => digits t 0 false
  end.

Fixpoint deserialize_all (each : value -> messages + value) (l : list value) (i : nat)
  : list (nat * messages) * list value :=
  match l with
  | [] => ([], [])
  | v :: l' =>
      let '(errs, vs) := deserialize_all each l' (S i) in
      match each v with
      | inl m => ((i, m) :: errs, vs)
      | inr v' => (errs, v' :: vs)
      end
  end.

(** [Field._deserialize] for a value that is neither missing nor [None] *)
Fixpoint deserialize (k : kind) (v : value) : messages + value :=
  match k with
  | Int =>
      match v with
      | VInt z => inr (VInt z)
      | VStr s => match py_int s with
                  | Some z => inr (VInt z)
                  | None => inl (Messages ["Not a valid integer."])
                  end
      | _ => inl (Messages ["Not a valid integer."])
      end
  | Str =>
      match v with
      | VStr s => inr (VStr s)
      | _ => inl (Messages ["Not a valid string."])
      end
  | ListOf inner =>
      match v with
      | VList l =>
          match deserialize_all
                  (fun x => match x with
                            | VNone => inl (Messages ["Field may not be null."])
                            | _ => deserialize inner x
                            end) l 0 with
          | ([], vs) => inr (VList vs)
          | (errs, _) => inl (ByIndex errs)
          end
      | _ => inl (Messages ["Not a valid list."])
      end
  end.

Fixpoint join (sep : string) (l : list string) : string :=
  match l with
  | [] => EmptyString
  | [x] => x
  | x :: l' => x +:+ sep +:+ join sep l'
  end.

Definition check (c : validator) (v : value) : list string :=
  match c with
  | OneOf choices =>
      match v with
      | VStr s => if key_in s choices then [] else ["Must be one of: " +:+ join ", " choices +:+ "."]
      | _ => ["Must be one of: " +:+ join ", " choices +:+ "."]
      end
  | Length min =>
      let too_short := ["Shorter than minimum length " +:+ pretty min +:+ "."] in
      match v with
      | VList l => if (length l <? min)%nat then too_short else []
      | VStr s => if (String.length s <? min)%nat then too_short else []
      | VDict d => if (length d <? min)%nat then too_short else []
      | _ => []
      end
  end.

(** [Field.deserialize]: a missing key, [None], the conversion, then the
    validators. *)
Definition load_field (f : field) (data : attrs) : messages + option value :=
  match dict_get (name f) data with
  | None =>
      if required f then inl (Messages ["Missing data for required field."])
      else inr (load_default f)
  | Some VNone => inl (Messages ["Field may not be null."])
  | Some v =>
      match deserialize (ftype f) v with
      | inl m => inl m
      | inr v' =>
          match flat_map (fun c => check c v') (validate f) with
          | [] => inr (Some v')
          | msgs => inl (Messages msgs)
          end
      end
  end.

Definition schema : Type := list field.

Fixpoint load_fields (s : schema) (data : attrs) : list (string * messages) * attrs :=
  match s with
  | [] => ([], [])
  | f :: s' =>
      let '(errs, loaded) := load_fields s' data in
      match load_field f data with
      | inl m => ((name f, m) :: errs, loaded)
      | inr (Some v) => (errs, (name f, v) :: loaded)
      | inr None => (errs, loaded)
      end
  end.

(** Keys of the request no field declares ([unknown = RAISE]). *)
Definition unknown_fields (s : schema) (data : attrs) : list (string * messages) :=
  map (fun k => (k, Messages ["Unknown field."]))
      (List.filter (fun k => negb (key_in k (map name s))) (dict_keys data)).

(** [Schema.load] *)
Definition load (s : schema) (body : value) : list (string * messages) + attrs :=
  match body with
  | VDict data =>
      let '(errs, loaded) := load_fields s data in
      match errs ++ unknown_fields s data with
      | [] => inr loaded
      | all => inl all
      end
  | _ => inl [("_schema", Messages ["Invalid input type."])]
  end.

Definition RequestTableDataSchema : schema :=
  [ {| name := "start"; ftype := Int; required := false;
       load_default := Some (VInt 0); validate := [] |};
    {| name := "length"; ftype := Int; required := false;
       load_default := Some (VInt 10); validate := [] |};
    {| name := "search_value"; ftype := Str; required := false;
       load_default := Some (VStr EmptyString); validate := [] |};
    {| name := "order_by"; ftype := Str; required := false;
       load_default := Some (VStr EmptyString); validate := [] |};
    {| name := "order_direction"; ftype := Str; required := false;
       load_default := None; validate := [OneOf ["asc"; "desc"]] |} ].

Definition RequestTableUpdateByIdList : schema :=
  [ {| name := "id_list"; ftype := ListOf Int; required := true;
       load_default := None; validate := [Length 1] |} ].

(** The declared fields of a subclass: the inherited ones come first, and
    a field the subclass declares again takes the place of the inherited
    one. *)
Fixpoint redeclare (f : field) (s : schema) : schema :=
  match s with
  | [] => [f]
  | g :: s' => if String.eqb (name g) (name f) then f :: s' else g :: redeclare f s'
  end.

Definition subclass (parent own : schema) : schema :=
  fold_left (fun s f => redeclare f s) own parent.

Definition RequestHistoryTableDataSchema : schema :=
  subclass RequestTableDataSchema
    [ {| name := "order_by"; ftype := Str; required := false;
         load_default := Some (VStr "finish_time"); validate := [] |} ].

Definition RequestPendingTableDataSchema : schema :=
  subclass RequestTableDataSchema
    [ {| name := "order_by"; ftype := Str; required := false;
         load_default := Some (VStr "priority"); validate := [] |} ].


(** ** The bulk handlers of [ApiPluginsHandler] *)

Inductive operation : Type := Enable | Disable | Update | Remove.

(** The exceptions as the handlers tell them apart: [BaseApiError] with
    its [str], any other [Exception] with its [str], and what is raised
    without being an [Exception] ([KeyboardInterrupt], [SystemExit]),
    which no clause of the handlers catches. *)
Inductive api_exn : Type :=
| BaseApiError (msg : string)
| OtherException (str : string)
| NonException (name : string).

Inductive response : Type :=
| Success
| ErrorEnvelope (code : Z) (reason : string) (msgs : list (string * messages))
    (traceback : option (list string)).

Record handler : Type := {
  request_body : value;
  diagnostic : option (list string);
  status : Z;
  status_reason : string;
  error_messages : list (string * messages);
  responses : list response;
  app_log : list string;
  calls : list (operation * value)
}.

Definition action (A : Type) : Type := prog api_exn handler A.

(** The helpers in [unmanic.webserver.helpers.plugins] (outside [src/]):
    what each hands back for an id list, or what it raises. *)
Class Plugins : Type := {
  helper : operation -> value -> api_exn + value
}.

Definition STATUS_ERROR_EXTERNAL : Z := 400.
Definition STATUS_ERROR_INTERNAL : Z := 500.

Definition update (f : handler -> handler) : action unit := fun h => (Returned tt, f h).

Definition set_status (code : Z) (reason : string) : action unit :=
  update (fun h =>
    {| request_body := request_body h; diagnostic := diagnostic h;
       status := code; status_reason := reason;
       error_messages := error_messages h; responses := responses h;
       app_log := app_log h; calls := calls h |}).

Definition respond (r : response) : action unit :=
  update (fun h =>
    {| request_body := request_body h; diagnostic := diagnostic h;
       status := status h; status_reason := status_reason h;
       error_messages := error_messages h; responses := responses h ++ [r];
       app_log := app_log h; calls := calls h |}).

Definition log_error (line : string) : action unit :=
  update (fun h =>
    {| request_body := request_body h; diagnostic := diagnostic h;
       status := status h; status_reason := status_reason h;
       error_messages := error_messages h; responses := responses h;
       app_log := app_log h ++ [line]; calls := calls h |}).

Definition set_error_messages (msgs : list (string * messages)) : action unit :=
  update (fun h =>
    {| request_body := request_body h; diagnostic := diagnostic h;
       status := status h; status_reason := status_reason h;
       error_messages := msgs; responses := responses h;
       app_log := app_log h; calls := calls h |}).

(** Modelled from the spec: [BaseApiHandler.write_success] is outside
    [src/]; section 4.3 has every successful operation without domain
    fields return [{success: true}]. *)
Definition write_success : action unit := respond Success.

(** Modelled from the spec: [BaseApiHandler.write_error] is outside
    [src/]; section 4.3 has it return the error envelope
    [{error, messages, traceback?}] for the status set, the call trace
    only in diagnostic mode. *)
Definition write_error : action unit := fun h =>
  respond (ErrorEnvelope (status h) (status_reason h) (error_messages h) (diagnostic h)) h.

(** Modelled from the spec: [BaseApiHandler.read_json_request] is outside
    [src/]; sections 4.3 and 7 have a request that fails the validation of
    its schema answered with the 400-class error and the per-field
    messages, the handler being left through [BaseApiError]. *)
Definition read_json_request (s : schema) : action attrs := fun h =>
  match load s (request_body h) with
  | inr json_request => (Returned json_request, h)
  | inl msgs =>
      (set_error_messages msgs >>
       set_status STATUS_ERROR_EXTERNAL "Failed request schema validation" >>
       write_error >>
       raise (BaseApiError "Failed request schema validation")) h
  end.

Section WithPlugins.
Context `{Plugins}.

(** A call of one helper of [plugins]. *)
Definition call (op : operation) (id_list : value) : action value := fun h =>
  let h' :=
    {| request_body := request_body h; diagnostic := diagnostic h;
       status := status h; status_reason := status_reason h;
       error_messages := error_messages h; responses := responses h;
       app_log := app_log h; calls := calls h ++ [(op, id_list)] |} in
  match helper op id_list with
  | inr v => (Returned v, h')
  | inl e => (Raised e, h')
  end.

(** [json_request.get(key, default)] *)
Definition get_or (key : string) (default : value) (d : attrs) : value :=
  match dict_get key d with
  | Some v => v
  | None => default
  end.

(** The body the four handlers share, up to the helper called, the name
    of the method in the route and the reason given on failure. *)
Definition mutate (op : operation) (call_method failure : string) : action unit :=
  try_except
    (let* json_request := read_json_request RequestTableUpdateByIdList in
     let* done := call op (get_or "id_list" (VList []) json_request) in
     if negb (truthy done) then
       set_status STATUS_ERROR_INTERNAL failure >> write_error
     else write_success)
    (fun e =>
       match e with
       | BaseApiError msg => log_error ("BaseApiError." +:+ call_method +:+ ": " +:+ msg)
       | OtherException str => set_status STATUS_ERROR_INTERNAL str >> write_error
       | NonException name => raise (NonException name)
       end).

Definition enable_plugins : action unit :=
  mutate Enable "enable_plugins" "Failed to enable the plugins by their IDs".

Definition disable_plugins : action unit :=
  mutate Disable "disable_plugins" "Failed to disable the plugins by their IDs".

Definition update_plugins : action unit :=
  mutate Update "update_plugins" "Failed to update the plugins by their IDs".

Definition remove_plugins : action unit :=
  mutate Remove "remove_plugins" "Failed to remove the plugins by their IDs".

(** The route table: the handler behind each bulk endpoint. *)
Definition endpoint (op : operation) : action unit :=
  match op with
  | Enable => enable_plugins
  | Disable => disable_plugins
  | Update => update_plugins
  | Remove => remove_plugins
  end.

Definition failure_reason (op : operation) : string :=
  match op with
  | Enable => "Failed to enable the plugins by their IDs"
  | Disable => "Failed to disable the plugins by their IDs"
  | Update => "Failed to update the plugins by their IDs"
  | Remove => "Failed to remove the plugins by their IDs"
  end.

End WithPlugins.

(** A request as it reaches a handler. *)
Definition incoming (body : value) (trace : option (list string)) : handler :=
  {| request_body := body; diagnostic := trace; status := 200; status_reason := "OK";
     error_messages := []; responses := []; app_log := []; calls := [] |}.

End Api.

(** * Definitions the properties are stated with *)

Section Laws.
Context `{Platform}.
Import Config.

(** A snapshot is consistent when it holds every declared field and every
    key it holds is, lower-cased, a declared field. *)
Record consistent (d : attrs) : Prop := {
  has_declared : forall f, f ∈ declared_fields -> f ∈ dict_keys d;
  only_declared : forall k, k ∈ dict_keys d -> lower k ∈ declared_fields
}.

Definition lower_closed (d : attrs) : Prop :=
  forall k, k ∈ dict_keys d -> lower k ∈ dict_keys d.

(** What a loop over the keys [ks] leaves when it assigns [f k] to each
    key [k] that [f] knows. *)
Definition overlay (f : string -> option value) (ks : list string) (d : attrs) : attrs :=
  fold_left (fun d k => match f k with Some v => setattr d k v | None => d end) ks d.
Arguments overlay : simpl never.

(** The directory [__import_settings_from_file] reads from. *)
Definition config_dir (config_path : option string) (env : gmap string string) : string :=
  match given config_path with
  | Some p => p
  | None =>
      match env !! "config_path" with
      | Some s => s
      | None => path_join (path_join get_home_dir ".unmanic") "config"
      end
  end.

(** The files once that directory is there. *)
Definition ready (p : string) (fs : gmap string node) : exn + gmap string node :=
  if bool_decide (is_Some (fs !! p)) then inr fs else makedirs p fs.

(** What the settings file contributes: its JSON value, [{}] when there is
    no file or it cannot be read. *)
Definition persisted (fs : gmap string node) (settings_file : string) : value :=
  match fs !! settings_file with
  | Some (File (Json v)) => v
  | _ => VDict []
  end.

(** The constructor's own overrides, in the order it applies them. *)
Definition explicit (config_path : option string) (kwargs : attrs) : attrs :=
  match given config_path with
  | Some p => [("config_path", VStr p)]
  | None => []
  end ++
  match kwargs_get "unmanic_path" kwargs with
  | VStr p =>
      if truthy (VStr p) then
        [ ("config_path", VStr (path_join p "config"));
          ("plugins_path", VStr (path_join p "plugins"));
          ("userdata_path", VStr (path_join p "userdata")) ]
      else []
  | _ => []
  end ++
  (if truthy (kwargs_get "port" kwargs) then [("ui_port", kwargs_get "port" kwargs)]
   else []).

Definition str_or_falsy (v : value) : bool :=
  match v with
  | VStr _ => true
  | _ => negb (truthy v)
  end.

(** The precedence law: an explicit override (the last one applied),
    else the persisted file, else the environment, else the default. *)
Definition precedence (overrides file : attrs) (env : gmap string string)
    (dflt : attrs) (f : string) : option value :=
  match dict_get f (rev overrides) with
  | Some v => Some v
  | None =>
      match dict_get f file with
      | Some v => Some v
      | None =>
          match env !! f with
          | Some s => Some (VStr s)
          | None => dict_get f dflt
          end
      end
  end.

Definition assign_all (l : attrs) (d : attrs) : attrs :=
  fold_left (fun d kv => setattr d (fst kv) (snd kv)) l d.

(** The snapshot the constructor leaves. *)
Definition constructed (env : gmap string string) (file : attrs)
    (config_path : option string) (kwargs : attrs) : attrs :=
  assign_all (explicit config_path kwargs)
    (overlay (fun k => dict_get k file) declared_fields
       (overlay (fun k => VStr <$> env !! k) declared_fields defaults)).

(** The names [get_config_item] answers through a method of the class
    although they are no declared fields. *)
Definition other_getters : list string :=
  [ "config_as_dict"; "config_keys"; "config_item" ].

(** How often the settings file was rewritten. *)
Definition is_dump (e : event) : bool :=
  match e with
  | Dumped _ _ => true
  | _ => false
  end.

Definition rewrites (evs : list event) : nat := length (List.filter is_dump evs).

(** The keys of the snapshot that the mapping [items] holds. *)
Definition matching (items d : attrs) : list string :=
  List.filter (fun k => key_in k (dict_keys items)) (dict_keys d).

(** Where a snapshot has its settings file. *)
Definition settings_file_of (d : attrs) : string :=
  match dict_get "config_path" d with
  | Some (VStr p) => path_join p "settings.json"
  | _ => EmptyString
  end.

(** The dumps a bulk assignment of [items] over the keys [ks] issues when
    every write succeeds: one for each key the mapping holds, carrying the
    snapshot with the fields assigned so far. *)
Fixpoint bulk_dumps (items : attrs) (ks : list string) (d : attrs) : list event :=
  match ks with
  | [] => []
  | k :: ks' =>
      match dict_get k items with
      | Some v =>
          let d' := setattr d k v in
          Dumped d' (settings_file_of d') :: bulk_dumps items ks' d'
      | None => bulk_dumps items ks' d
      end
  end.

(** What one call of [__write_settings_to_file] does to the process. *)
Definition written (d : attrs) (w : world) : outcome unit * world :=
  match dict_get "config_path" d with
  | Some (VStr p) =>
      match ready p (files w) with
      | inl e => (Raised e, w)
      | inr fs1 =>
          let settings_file := path_join p "settings.json" in
          let r := json_dump_to_file d settings_file fs1 in
          let evs := events w ++ [Dumped d settings_file] in
          if success (fst r) then
            (Returned tt, {| files := snd r; environ := environ w; events := evs |})
          else
            (Raised (Exception "Exception in writing settings to file"),
             {| files := snd r; environ := environ w;
                events := evs ++ map (Logged "exception" "Exception:") (errors (fst r)) |})
      end
  | Some (VInt z) => (Raised (if fits_c_int z then TypeError else OverflowError), w)
  | Some _ => (Raised TypeError, w)
  | None => (Raised (AttributeError "config_path"), w)
  end.

(** A host on which every directory can be made and every dump is
    reported written. *)
Definition dependable : Prop :=
  (forall q fs, exists fs', makedirs q fs = inr fs') /\
  (forall data q fs, success (fst (json_dump_to_file data q fs)) = true).

(** A program that never rewrites the settings file. *)
Definition silent {A} (m : M A) : Prop :=
  forall st, rewrites (events (outside (snd (m st)))) = rewrites (events (outside st)).

(** A host that makes the directory asked for and writes the dump where
    it is told to. *)
Definition faithful : Prop :=
  (forall q fs, makedirs q fs = inr (<[q := Dir]> fs)) /\
  (forall data q fs,
     json_dump_to_file data q fs =
     ({| success := true; errors := [] |}, <[q := File (Json (VDict data))]> fs)).

(** A host on which no dump succeeds, though directories can be made. *)
Definition write_protected : Prop :=
  (forall q fs, exists fs', makedirs q fs = inr fs') /\
  (forall data q fs, success (fst (json_dump_to_file data q fs)) = false).

(** JSON values that are no container: [null], a boolean, a number. *)
Definition scalar (v : value) : bool :=
  match v with
  | VNone | VBool _ | VInt _ => true
  | _ => false
  end.

End Laws.

(** The semantic type of a declared field, read off its default. *)
Inductive semtype : Type := TInteger | TBoolean | TPath.

Definition semantic_type `{Platform} (f : string) : option semtype :=
  match dict_get f Config.defaults with
  | Some (VInt _) => Some TInteger
  | Some (VBool _) => Some TBoolean
  | Some (VStr _) => Some TPath
  | _ => None
  end.

Definition has_type (t : semtype) (v : value) : bool :=
  match t, v with
  | TInteger, VInt _ => true
  | TBoolean, VBool _ => true
  | TPath, VStr _ => true
  | _, _ => false
  end.

Definition home : string := "/home/unmanic".

Definition quiet_world : world := {| files := ∅; environ := ∅; events := [] |}.

(** A fresh store on the dependable host, with nothing persisted. *)
Definition default_store : state :=
  {| self := @Config.defaults (sound_host home); outside := quiet_world |}.


(** The environment sets ui_port; nothing is persisted. *)
Definition port_environ : gmap string string := {[ "ui_port" := "9999" ]}.

Definition made_config_dir : gmap string node :=
  <[ "/home/unmanic/.unmanic/config" := Dir ]> ∅.

Definition two_fields : attrs := [("ui_port", VInt 9999); ("debugging", VBool true)].

Section ContractLaws.
Import Api.

(** The handler once a helper has been called with [id_list]. *)
Definition called (op : operation) (id_list : value) (h : handler) : handler :=
  {| request_body := request_body h; diagnostic := diagnostic h;
     status := status h; status_reason := status_reason h;
     error_messages := error_messages h; responses := responses h;
     app_log := app_log h; calls := calls h ++ [(op, id_list)] |}.

(** The table-request schemas with the [order_by] each one defaults to. *)
Definition table_schemas : list (schema * string) :=
  [ (RequestTableDataSchema, EmptyString);
    (RequestHistoryTableDataSchema, "finish_time");
    (RequestPendingTableDataSchema, "priority") ].

(** The [call_method] of the route of each bulk endpoint. *)
Definition call_method (op : operation) : string :=
  match op with
  | Enable => "enable_plugins"
  | Disable => "disable_plugins"
  | Update => "update_plugins"
  | Remove => "remove_plugins"
  end.

(** The directions a table request may ask for, or none. *)
Definition directions : list (option value) :=
  [ None; Some (VStr "asc"); Some (VStr "desc") ].

End ContractLaws.

(** A collaborator that fails every bulk mutation, as when one of the ids
    does not exist. *)
Definition failing_plugins : Api.Plugins := {| Api.helper _ _ := inr (VBool false) |}.

(** A collaborator that carries every bulk mutation out. *)
Definition working_plugins : Api.Plugins := {| Api.helper _ _ := inr (VBool true) |}.

Definition three_ids : value := VDict [("id_list", VList [VInt 1; VInt 2; VInt 3])].

Definition no_ids : value := VDict [("id_list", VList [])].

(** The config directory with a settings file that holds the JSON
    number 7. *)
Definition scalar_files : gmap string node :=
  {[ "/home/unmanic/.unmanic/config" := Dir;
     "/home/unmanic/.unmanic/config/settings.json" := File (Json (VInt 7)) ]}.

(** The config directory with a settings file that is no JSON. *)
Definition corrupt_files : gmap string node :=
  {[ "/home/unmanic/.unmanic/config" := Dir;
     "/home/unmanic/.unmanic/config/settings.json" :=
       File (Unreadable "Expecting value: line 1 column 1 (char 0)") ]}.

(** A fresh store on the host that writes nothing. *)
Definition readonly_store : state :=
  {| self := @Config.defaults (readonly_host home); outside := quiet_world |}.

(** A fresh store in a process whose environment sets ui_port. *)
Definition port_store : state :=
  {| self := @Config.defaults (sound_host home);
     outside := {| files := ∅; environ := port_environ; events := [] |} |}.

(** Two fields that come late in the snapshot. *)
Definition later_fields : attrs :=
  [("number_of_workers", VInt 4); ("debugging", VBool true)].

(** A collaborator whose helper raises. *)
Definition raising_plugins : Api.Plugins :=
  {| Api.helper _ _ := inl (Api.OtherException "database is locked") |}.

(** A collaborator whose helper raises the handlers' own error class. *)
Definition refusing_plugins : Api.Plugins :=
  {| Api.helper _ _ := inl (Api.BaseApiError "Plugin table is locked") |}.


(** * Properties *)

(** ** Association lists *)

Lemma key_in_true (k : string) (ks : list string) :
  key_in k ks = true <-> k ∈ ks.
Proof.
  unfold key_in. rewrite existsb_exists, list_elem_of_In. split.
  - intros (x & Hx & Heq). apply String.eqb_eq in Heq. by subst.
  - intros Hk. exists k. split; [done | apply String.eqb_refl].
Qed.

Lemma key_in_false (k : string) (ks : list string) :
  key_in k ks = false <-> k ∉ ks.
Proof.
  rewrite <- key_in_true. destruct (key_in k ks); split; done.
Qed.

Lemma dict_get_setattr_eq (d : attrs) (k : string) (v : value) :
  dict_get k (setattr d k v) = Some v.
Proof.
  induction d as [|[k' v'] d IH]; simpl.
  - by rewrite String.eqb_refl.
  - destruct (String.eqb k' k) eqn:E; simpl; rewrite E; done.
Qed.

Lemma dict_get_setattr_ne (d : attrs) (k k' : string) (v : value) :
  k <> k' -> dict_get k' (setattr d k v) = dict_get k' d.
Proof.
  intros Hne. induction d as [|[k0 v0] d IH]; simpl.
  - destruct (String.eqb_spec k k'); done.
  - destruct (String.eqb_spec k0 k) as [->|Hk]; simpl.
    + destruct (String.eqb_spec k k'); done.
    + by rewrite IH.
Qed.

Lemma dict_get_Some_key (d : attrs) (k : string) (v : value) :
  dict_get k d = Some v -> k ∈ dict_keys d.
Proof.
  induction d as [|[k' v'] d IH]; simpl; [done|].
  destruct (String.eqb_spec k' k) as [->|Hk]; intros Hg.
  - apply list_elem_of_here.
  - apply list_elem_of_further. auto.
Qed.

Lemma dict_get_key (d : attrs) (k : string) :
  k ∈ dict_keys d -> exists v, dict_get k d = Some v.
Proof.
  induction d as [|[k' v'] d IH]; simpl.
  - intros Hk. by apply not_elem_of_nil in Hk.
  - intros Hk. destruct (String.eqb_spec k' k) as [->|Hne]; [eauto|].
    apply elem_of_cons in Hk as [->|Hk]; [done | auto].
Qed.

Lemma dict_get_None_key (d : attrs) (k : string) :
  dict_get k d = None <-> k ∉ dict_keys d.
Proof.
  split.
  - intros Hg Hk. apply dict_get_key in Hk as [v Hv]. congruence.
  - intros Hk. destruct (dict_get k d) eqn:E; [|done].
    by apply dict_get_Some_key in E.
Qed.

Lemma dict_keys_setattr_in (d : attrs) (k : string) (v : value) :
  k ∈ dict_keys d -> dict_keys (setattr d k v) = dict_keys d.
Proof.
  induction d as [|[k' v'] d IH]; simpl.
  - intros Hk. by apply not_elem_of_nil in Hk.
  - intros Hk. destruct (String.eqb_spec k' k) as [->|Hne]; simpl; [done|].
    f_equal. apply IH. apply elem_of_cons in Hk as [->|Hk]; done.
Qed.

Lemma dict_keys_setattr_notin (d : attrs) (k : string) (v : value) :
  k ∉ dict_keys d -> dict_keys (setattr d k v) = dict_keys d ++ [k].
Proof.
  induction d as [|[k' v'] d IH]; simpl; [done|].
  intros Hk. apply not_elem_of_cons in Hk as [Hne Hk].
  destruct (String.eqb_spec k' k) as [->|_]; [done|]. simpl. by rewrite IH.
Qed.

(** ** Lower-casing *)

Lemma lower_ascii_idemp (c : ascii) : lower_ascii (lower_ascii c) = lower_ascii c.
Proof. by destruct c as [[] [] [] [] [] [] [] []]. Qed.

Lemma lower_idemp (s : string) : lower (lower s) = lower s.
Proof. induction s as [|c s IH]; simpl; [done|]. by rewrite lower_ascii_idemp, IH. Qed.

Lemma lower_app (s t : string) : lower (s +:+ t) = lower s +:+ lower t.
Proof. induction s as [|c s IH]; simpl; [done|]. by rewrite IH. Qed.

(** ** The store *)

Section Store.
Context `{Platform}.
Import Config.

Lemma consistent_lower_closed (d : attrs) : consistent d -> lower_closed d.
Proof. intros [Hd Ho] k Hk. auto. Qed.

Lemma declared_lower (f : string) : f ∈ declared_fields -> lower f = f.
Proof.
  unfold declared_fields. rewrite !elem_of_cons, elem_of_nil.
  intros Hf. repeat (destruct Hf as [->|Hf]; [reflexivity|]). done.
Qed.

Lemma dict_keys_defaults : dict_keys defaults = declared_fields.
Proof. reflexivity. Qed.

Lemma consistent_defaults : consistent defaults.
Proof.
  split; rewrite dict_keys_defaults; [done|].
  intros k Hk. by rewrite declared_lower.
Qed.

Lemma consistent_keys (d d' : attrs) :
  dict_keys d' = dict_keys d -> consistent d -> consistent d'.
Proof. intros E [Hd Ho]. split; rewrite E; done. Qed.

Lemma lower_closed_keys (d d' : attrs) :
  dict_keys d' = dict_keys d -> lower_closed d -> lower_closed d'.
Proof. intros E Hc k. rewrite E. apply Hc. Qed.

(** *** [set_config_item], case by case *)

Lemma set_config_item_unknown (key : string) (v : value) (save : bool) (st : state) :
  key_in (lower key) (dict_keys (self st)) = false ->
  set_config_item key v save st =
  emit (Logged "warning" "Attempting to save unknown key" key) st.
Proof.
  intros Hk. unfold set_config_item, get_config_keys, get_config_as_dict, bind, ret.
  simpl. by rewrite Hk.
Qed.

Lemma set_config_item_quiet (key : string) (v : value) (st : state) :
  key_in (lower key) (dict_keys (self st)) = true ->
  set_config_item key v false st =
  (Returned tt, {| self := setattr (self st) key v; outside := outside st |}).
Proof.
  intros Hk. unfold set_config_item, get_config_keys, get_config_as_dict, bind, ret.
  simpl. by rewrite Hk.
Qed.

Lemma set_config_item_saving (key : string) (v : value) (st : state) :
  key_in (lower key) (dict_keys (self st)) = true ->
  set_config_item key v true st =
  __write_settings_to_file {| self := setattr (self st) key v; outside := outside st |}.
Proof.
  intros Hk. unfold set_config_item, get_config_keys, get_config_as_dict, bind, ret.
  simpl. by rewrite Hk.
Qed.

(** The slip of [set_config_item]: the test is on [key.lower()], the
    assignment on [key]. *)
Lemma consistent_setattr (d : attrs) (key : string) (v : value) :
  key_in (lower key) (dict_keys d) = true -> consistent d ->
  consistent (setattr d key v).
Proof.
  intros Hk [Hd Ho]. apply key_in_true in Hk.
  destruct (decide (key ∈ dict_keys d)) as [Hin|Hni].
  - split; rewrite dict_keys_setattr_in by done; done.
  - split; rewrite dict_keys_setattr_notin by done.
    + intros f Hf. apply elem_of_app. left. auto.
    + intros k [Hk'|Hk']%elem_of_app; [auto|].
      apply list_elem_of_singleton in Hk' as ->.
      apply Ho in Hk. by rewrite lower_idemp in Hk.
Qed.

(** *** Overlays *)

Lemma dict_keys_overlay (f : string -> option value) (ks : list string) (d : attrs) :
  (forall k, k ∈ ks -> k ∈ dict_keys d) ->
  dict_keys (overlay f ks d) = dict_keys d.
Proof.
  unfold overlay.
  revert d. induction ks as [|k ks IH]; intros d Hks; simpl; [done|].
  assert (Hk : k ∈ dict_keys d) by (apply Hks; left).
  destruct (f k) as [v|].
  - rewrite IH; [by apply dict_keys_setattr_in|].
    intros k' Hk'. rewrite dict_keys_setattr_in by done. apply Hks. by right.
  - apply IH. intros k' Hk'. apply Hks. by right.
Qed.

Lemma dict_get_overlay (f : string -> option value) (ks : list string) (d : attrs)
    (k : string) :
  dict_get k (overlay f ks d) =
  if key_in k ks then match f k with Some v => Some v | None => dict_get k d end
  else dict_get k d.
Proof.
  unfold overlay.
  revert d. induction ks as [|k0 ks IH]; intros d; simpl; [done|].
  rewrite IH. destruct (String.eqb_spec k k0) as [->|Hne]; simpl.
  - destruct (f k0) as [v|] eqn:Ef.
    + rewrite dict_get_setattr_eq. by destruct (key_in k0 ks).
    + by destruct (key_in k0 ks).
  - destruct (f k0) as [v|]; [|done].
    rewrite dict_get_setattr_ne by done. done.
Qed.

Lemma dict_get_overlay_in (f : string -> option value) (ks : list string) (d : attrs)
    (k : string) :
  key_in k ks = true ->
  dict_get k (overlay f ks d) =
  match f k with Some v => Some v | None => dict_get k d end.
Proof. intros Hk. by rewrite dict_get_overlay, Hk. Qed.

Lemma overlay_loop (f : string -> option value) (body : string -> M unit)
    (w : world) (ks : list string) (d : attrs) :
  (forall k d', body k {| self := d'; outside := w |} =
     match f k with
     | Some v => set_config_item k v false {| self := d'; outside := w |}
     | None => (Returned tt, {| self := d'; outside := w |})
     end) ->
  (forall k, k ∈ ks -> k ∈ dict_keys d) ->
  lower_closed d ->
  for_each ks body {| self := d; outside := w |} =
  (Returned tt, {| self := overlay f ks d; outside := w |}).
Proof.
  intros Hbody. unfold overlay.
  revert d. induction ks as [|k ks IH]; intros d Hks Hc; [done|].
  assert (Hk : k ∈ dict_keys d) by (apply Hks; left).
  assert (Hrest : forall k', k' ∈ ks -> k' ∈ dict_keys d)
    by (intros k' Hk'; apply Hks; by right).
  simpl. unfold bind at 1. rewrite Hbody. destruct (f k) as [v|].
  - rewrite set_config_item_quiet by (apply key_in_true, Hc, Hk). simpl.
    apply IH.
    + intros k' Hk'. rewrite dict_keys_setattr_in by done. auto.
    + eapply lower_closed_keys; [|exact Hc]. by apply dict_keys_setattr_in.
  - by apply IH.
Qed.

Lemma overlay_nothing (f : string -> option value) (ks : list string) (d : attrs) :
  (forall k, f k = None) -> overlay f ks d = d.
Proof.
  intros Hf. unfold overlay.
  revert d. induction ks as [|k ks IH]; intros d; simpl; [done|].
  by rewrite Hf.
Qed.

Lemma set_bulk_config_items_quiet (d : attrs) (st : state) :
  lower_closed (self st) ->
  set_bulk_config_items (VDict d) false st =
  (Returned tt,
   {| self := overlay (fun k => dict_get k d) (dict_keys (self st)) (self st);
      outside := outside st |}).
Proof.
  intros Hc. destruct st as [s w]. unfold set_bulk_config_items.
  unfold bind at 1. unfold get_config_keys, get_config_as_dict, bind, ret. simpl.
  apply overlay_loop; [|done|done].
  intros k d'. unfold lift. simpl.
  destruct (dict_get k d) as [v|] eqn:Eg.
  - assert (Hin : key_in k (dict_keys d) = true)
      by (eapply key_in_true, dict_get_Some_key, Eg).
    by rewrite Hin.
  - assert (Hni : key_in k (dict_keys d) = false)
      by (by apply key_in_false, dict_get_None_key).
    by rewrite Hni.
Qed.

Lemma import_settings_from_env_runs (st : state) :
  lower_closed (self st) ->
  __import_settings_from_env st =
  (Returned tt,
   {| self := overlay (fun k => VStr <$> environ (outside st) !! k)
                (dict_keys (self st)) (self st);
      outside := outside st |}).
Proof.
  intros Hc. destruct st as [s w]. unfold __import_settings_from_env.
  unfold bind at 1. unfold get_config_keys, get_config_as_dict, bind, ret. simpl.
  apply overlay_loop; [|done|done].
  intros k d'. simpl. by destruct (environ w !! k).
Qed.

(** *** Construction *)

Lemma dict_get_app (k : string) (d1 d2 : attrs) :
  dict_get k (d1 ++ d2) =
  match dict_get k d1 with Some v => Some v | None => dict_get k d2 end.
Proof.
  induction d1 as [|[k' v'] d1 IH]; simpl; [done|].
  by destruct (String.eqb k' k).
Qed.

Lemma dict_get_assign_all (k : string) (l d : attrs) :
  dict_get k (assign_all l d) =
  match dict_get k (rev l) with Some v => Some v | None => dict_get k d end.
Proof.
  revert d. induction l as [|[k0 v0] l IH]; intros d; simpl; [done|].
  rewrite IH, dict_get_app. destruct (dict_get k (rev l)); [done|]. simpl.
  destruct (String.eqb_spec k0 k) as [->|Hne].
  - apply dict_get_setattr_eq.
  - by apply dict_get_setattr_ne.
Qed.

Lemma dict_keys_assign_all (l d : attrs) :
  (forall k, k ∈ dict_keys l -> k ∈ dict_keys d) ->
  dict_keys (assign_all l d) = dict_keys d.
Proof.
  revert d. induction l as [|[k0 v0] l IH]; intros d Hl; simpl; [done|].
  assert (Hk : k0 ∈ dict_keys d) by (apply Hl; left).
  rewrite IH; [by apply dict_keys_setattr_in|].
  intros k Hk'. rewrite dict_keys_setattr_in by done. apply Hl. by right.
Qed.

Lemma assign_loop (l : attrs) (st : state) :
  (forall k, k ∈ dict_keys l -> k ∈ declared_fields) ->
  dict_keys (self st) = declared_fields ->
  for_each l (fun kv => set_config_item (fst kv) (snd kv) false) st =
  (Returned tt, {| self := assign_all l (self st); outside := outside st |}).
Proof.
  revert st. induction l as [|[k0 v0] l IH]; intros [d w] Hl Hd; [done|].
  assert (Hk : k0 ∈ declared_fields) by (apply Hl; left).
  simpl in *. unfold bind at 1.
  rewrite set_config_item_quiet
    by (simpl; rewrite (declared_lower _ Hk), Hd; by apply key_in_true).
  simpl. rewrite IH; [done| |].
  - intros k Hk'. apply Hl. by right.
  - simpl. rewrite dict_keys_setattr_in; [done|]. by rewrite Hd.
Qed.

Lemma set_config_item_field (f : string) (v : value) (d : attrs) (w : world) :
  key_in f declared_fields = true ->
  dict_keys d = declared_fields ->
  set_config_item f v false {| self := d; outside := w |} =
  (Returned tt, {| self := setattr d f v; outside := w |}).
Proof.
  intros Hf Hd. apply set_config_item_quiet. simpl. rewrite Hd.
  apply key_in_true in Hf. rewrite (declared_lower _ Hf). by apply key_in_true.
Qed.

Lemma dict_keys_setattr_field (f : string) (v : value) (d : attrs) :
  key_in f declared_fields = true ->
  dict_keys d = declared_fields ->
  dict_keys (setattr d f v) = declared_fields.
Proof.
  intros Hf Hd. rewrite dict_keys_setattr_in; [done|].
  rewrite Hd. by apply key_in_true.
Qed.

Lemma init_overrides (config_path : option string) (kwargs : attrs) (st : state) :
  str_or_falsy (kwargs_get "unmanic_path" kwargs) = true ->
  dict_keys (self st) = declared_fields ->
  (match given config_path with
   | Some p => set_config_item "config_path" (VStr p) false
   | None => ret tt
   end >>
   (if truthy (kwargs_get "unmanic_path" kwargs) then
      (let* p := as_path (kwargs_get "unmanic_path" kwargs) in
       set_config_item "config_path" (VStr (path_join p "config")) false) >>
      (let* p := as_path (kwargs_get "unmanic_path" kwargs) in
       set_config_item "plugins_path" (VStr (path_join p "plugins")) false) >>
      (let* p := as_path (kwargs_get "unmanic_path" kwargs) in
       set_config_item "userdata_path" (VStr (path_join p "userdata")) false)
    else ret tt) >>
   (if truthy (kwargs_get "port" kwargs) then
      set_config_item "ui_port" (kwargs_get "port" kwargs) false
    else ret tt)) st =
  (Returned tt,
   {| self := assign_all (explicit config_path kwargs) (self st);
      outside := outside st |}).
Proof.
  intros Hup Hd. destruct st as [d w]. simpl in Hd. unfold explicit.
  destruct (given config_path) as [p|];
    destruct (kwargs_get "unmanic_path" kwargs) as [ |b|z|u|l|l] eqn:Eu;
    simpl in Hup; try (apply negb_true_iff in Hup); cbn [truthy];
    try rewrite Hup; try destruct (negb (String.eqb u EmptyString));
    destruct (truthy (kwargs_get "port" kwargs));
    unfold bind, ret, as_path; simpl;
    repeat (rewrite set_config_item_field
              by (try reflexivity; repeat (apply dict_keys_setattr_field; [reflexivity|]); exact Hd));
    reflexivity.
Qed.

Lemma bind_ok {A B} (m : M A) (k : A -> M B) (st s : state) (a : A) :
  m st = (Returned a, s) -> bind m k st = k a s.
Proof. intros E. unfold bind. by rewrite E. Qed.

Lemma bind_prefix {A B C D} (p : M A) (m : A -> M B) (i1 : B -> M C) (i2 : C -> M D)
    (st s : state) (a : A) :
  p st = (Returned a, s) ->
  bind (bind (bind p m) i1) i2 st = bind (bind (m a) i1) i2 s.
Proof. intros E. unfold bind. by rewrite E. Qed.

Lemma import_settings_from_file_runs (config_path : option string) (w : world)
    (fs1 : gmap string node) (d : attrs) :
  let env := environ w in
  let d1 := overlay (fun k => VStr <$> env !! k) declared_fields defaults in
  ready (config_dir config_path env) (files w) = inr fs1 ->
  persisted fs1 (path_join (config_dir config_path env) "settings.json") = VDict d ->
  exists evs,
    __import_settings_from_file config_path {| self := d1; outside := w |} =
    (Returned tt,
     {| self := overlay (fun k => dict_get k d) declared_fields d1;
        outside := {| files := fs1; environ := env; events := events w ++ evs |} |}).
Proof.
  intros env d1 Hready Hpers.
  assert (Hk1 : dict_keys d1 = declared_fields).
  { unfold d1. rewrite dict_keys_overlay; [done|]. by rewrite dict_keys_defaults. }
  assert (Hc1 : lower_closed d1).
  { apply (lower_closed_keys defaults); [by rewrite dict_keys_defaults|].
    apply consistent_lower_closed, consistent_defaults. }
  assert (Hcp : (match given config_path with
                 | Some p => ret p
                 | None => bind get_config_path as_stat_path
                 end) {| self := d1; outside := w |} =
                (Returned (config_dir config_path env), {| self := d1; outside := w |})).
  { unfold config_dir. destruct (given config_path) as [p|]; [done|].
    unfold bind, get_config_path, getattr. cbn [self]. unfold d1.
    rewrite dict_get_overlay_in by reflexivity.
    destruct (env !! "config_path"); reflexivity. }
  unfold __import_settings_from_file.
  rewrite (bind_ok _ _ _ _ _ Hcp). clear Hcp.
  generalize dependent (config_dir config_path env). intros cp Hready Hpers.
  clearbody d1. subst env.
  unfold ready in Hready.
  assert (Hdir : ((if bool_decide (is_Some (files w !! cp)) then ret tt
                   else os_makedirs cp) {| self := d1; outside := w |}) =
                 (Returned tt,
                  {| self := d1;
                     outside := {| files := fs1; environ := environ w;
                                   events := events w |} |})).
  { destruct (bool_decide (is_Some (files w !! cp))).
    - injection Hready as <-. by destruct w.
    - unfold os_makedirs. cbn [outside files]. by rewrite Hready. }
  erewrite (bind_ok (os_path_exists cp)) by reflexivity. cbn [outside files].
  rewrite (bind_ok _ _ _ _ _ Hdir). clear Hdir Hready.
  cbn [outside files].
  unfold persisted in Hpers.
  set (sf := path_join cp "settings.json") in *. clearbody sf.
  erewrite (bind_ok (os_path_exists sf)) by reflexivity. cbn [outside files].
  destruct (fs1 !! sf) as [[|[v|err]]|] eqn:Efile.
  - exists [Logged "exception" "Exception in reading saved settings from file:"
              ("[Errno 21] Is a directory: '" +:+ sf +:+ "'")].
    rewrite bool_decide_eq_true_2 by eauto.
    unfold bind at 1. unfold load_settings. cbn [outside files]. rewrite Efile.
    unfold bind, ret, _log, emit. cbn [outside files self environ events].
    rewrite set_bulk_config_items_quiet by done. cbn [outside files self environ events].
    rewrite Hk1. injection Hpers as <-. done.
  - exists []. rewrite bool_decide_eq_true_2 by eauto.
    unfold bind at 1. unfold load_settings. cbn [outside files]. rewrite Efile.
    subst v. rewrite set_bulk_config_items_quiet by done.
    cbn [outside files self environ events].
    rewrite Hk1, app_nil_r. by destruct w.
  - exists [Logged "exception" "Exception in reading saved settings from file:" err].
    rewrite bool_decide_eq_true_2 by eauto.
    unfold bind at 1. unfold load_settings. cbn [outside files]. rewrite Efile.
    unfold bind, ret, _log, emit. cbn [outside files self environ events].
    rewrite set_bulk_config_items_quiet by done. cbn [outside files self environ events].
    rewrite Hk1. injection Hpers as <-. done.
  - exists []. injection Hpers as <-. rewrite overlay_nothing by done.
    rewrite bool_decide_eq_false_2 by (by intros [? ?]).
    by rewrite app_nil_r.
Qed.

Lemma explicit_declared (config_path : option string) (kwargs : attrs) (k : string) :
  k ∈ dict_keys (explicit config_path kwargs) -> k ∈ declared_fields.
Proof.
  unfold explicit.
  destruct (given config_path); destruct (kwargs_get "unmanic_path" kwargs);
    try destruct (truthy (VStr _)); destruct (truthy (kwargs_get "port" kwargs));
    cbn [app dict_keys map fst]; rewrite ?elem_of_cons, elem_of_nil;
    intros Hk; repeat (destruct Hk as [->|Hk]; [apply key_in_true; reflexivity|]);
    done.
Qed.

Lemma dict_keys_constructed (env : gmap string string) (file : attrs)
    (config_path : option string) (kwargs : attrs) :
  dict_keys (constructed env file config_path kwargs) = declared_fields.
Proof.
  unfold constructed.
  assert (Hk : forall f d, dict_keys d = declared_fields ->
                dict_keys (overlay f declared_fields d) = declared_fields).
  { intros f d Hd. rewrite dict_keys_overlay; [done|]. by rewrite Hd. }
  rewrite dict_keys_assign_all.
  - apply Hk, Hk, dict_keys_defaults.
  - intros k Hk'%explicit_declared.
    rewrite Hk; [done | apply Hk, dict_keys_defaults].
Qed.

Lemma consistent_constructed (env : gmap string string) (file : attrs)
    (config_path : option string) (kwargs : attrs) :
  consistent (constructed env file config_path kwargs).
Proof.
  apply (consistent_keys defaults); [|apply consistent_defaults].
  by rewrite dict_keys_constructed, dict_keys_defaults.
Qed.

Lemma constructed_precedence (env : gmap string string) (file : attrs)
    (config_path : option string) (kwargs : attrs) (f : string) :
  f ∈ declared_fields ->
  dict_get f (constructed env file config_path kwargs) =
  precedence (explicit config_path kwargs) file env defaults f.
Proof.
  intros Hf%key_in_true. unfold constructed, precedence.
  rewrite dict_get_assign_all, !dict_get_overlay_in by done.
  destruct (dict_get f (rev (explicit config_path kwargs))); [done|].
  destruct (dict_get f file); [done|]. by destruct (env !! f).
Qed.

Lemma init_runs (config_path : option string) (kwargs : attrs) (st0 : state)
    (fs1 : gmap string node) (file : attrs) :
  let env := environ (outside st0) in
  ready (config_dir config_path env) (files (outside st0)) = inr fs1 ->
  persisted fs1 (path_join (config_dir config_path env) "settings.json") = VDict file ->
  str_or_falsy (kwargs_get "unmanic_path" kwargs) = true ->
  exists evs,
    __init__ config_path kwargs st0 =
    (Returned tt,
     {| self := constructed env file config_path kwargs;
        outside := {| files := fs1; environ := env;
                      events := events (outside st0) ++ evs |} |}).
Proof.
  intros env Hready Hpers Hup. destruct st0 as [d0 w]. cbn [outside] in *.
  destruct (import_settings_from_file_runs config_path w fs1 file Hready Hpers)
    as [evs Hfile].
  set (d1 := overlay (fun k => VStr <$> environ w !! k) declared_fields defaults) in *.
  set (d2 := overlay (fun k => dict_get k file) declared_fields d1) in *.
  assert (Hk2 : dict_keys d2 = declared_fields).
  { unfold d2, d1. rewrite !dict_keys_overlay; try done.
    rewrite dict_keys_overlay; [done|]. by rewrite dict_keys_defaults. }
  assert (E1 : (set_self defaults >> __import_settings_from_env)
                 {| self := d0; outside := w |} =
               (Returned tt, {| self := d1; outside := w |})).
  { erewrite (bind_ok (set_self defaults)) by reflexivity.
    rewrite import_settings_from_env_runs
      by apply consistent_lower_closed, consistent_defaults.
    reflexivity. }
  exists (evs ++ [LoggerSetup (constructed env file config_path kwargs)]).
  unfold __init__.
  pose proof (init_overrides config_path kwargs
    {| self := d2; outside := {| files := fs1; environ := env;
                                 events := events w ++ evs |} |} Hup Hk2) as Hov.
  cbn [self outside] in Hov.
  assert (Hc : constructed env file config_path kwargs =
               assign_all (explicit config_path kwargs) d2) by reflexivity.
  rewrite Hc. clear Hc. clearbody d2 d1.
  assert (E3 : (set_self defaults >> __import_settings_from_env >>
                __import_settings_from_file config_path)
                 {| self := d0; outside := w |} =
               (Returned tt,
                {| self := d2;
                   outside := {| files := fs1; environ := env;
                                 events := events w ++ evs |} |})).
  { by rewrite (bind_ok _ _ _ _ _ E1). }
  unfold __init__. erewrite bind_ok.
  2:{ rewrite (bind_prefix _ _ _ _ _ _ _ E3). exact Hov. }
  unfold __setup_unmanic_logger, get_config_as_dict, bind, ret, emit.
  cbn [self outside files environ events]. by rewrite app_assoc.
Qed.

(** *** Reading *)

Lemma getter_name_not_declared (key : string) : "get_" +:+ key ∉ declared_fields.
Proof.
  unfold declared_fields. rewrite !elem_of_cons, elem_of_nil. simpl.
  intros Hk. repeat (destruct Hk as [Hk|Hk]; [discriminate|]). done.
Qed.

Lemma no_getter_attribute (d : attrs) (key : string) :
  consistent d -> dict_get ("get_" +:+ key) d = None.
Proof.
  intros [_ Ho]. apply dict_get_None_key. intros Hk. apply Ho in Hk.
  rewrite lower_app in Hk. by apply getter_name_not_declared in Hk.
Qed.

Lemma get_config_item_field (f : string) (v : value) (st : state) :
  consistent (self st) ->
  f ∈ declared_fields -> f <> "userdata_path" ->
  dict_get f (self st) = Some v ->
  get_config_item f st = (Returned (OValue v), st).
Proof.
  intros Hc Hf Hne Hv. unfold get_config_item.
  rewrite no_getter_attribute by done.
  unfold declared_fields in Hf. rewrite !elem_of_cons, elem_of_nil in Hf.
  repeat (destruct Hf as [->|Hf];
          [first [ done
                 | simpl;
                   unfold bind, ret, get_ui_port, get_cache_path, get_config_path,
                     get_debugging, get_enable_inotify, get_library_path, get_log_path,
                     get_number_of_workers, get_enable_library_scanner,
                     get_run_full_scan_on_start, get_schedule_full_scan_minutes,
                     get_follow_symlinks, get_plugins_path, getattr;
                   by rewrite Hv ]|]).
  done.
Qed.

Lemma call_getter_undeclared (key : string) :
  key ∉ declared_fields -> key ∉ other_getters ->
  call_getter ("get_" +:+ key) = None.
Proof.
  intros Hd Ho. unfold call_getter.
  repeat match goal with
  | |- context [String.eqb ?a ?b] =>
      destruct (String.eqb_spec a b) as [E|_];
      [ exfalso; cbv [String.append] in E; simplify_eq;
        first [ apply Hd; apply key_in_true; reflexivity
              | apply Ho; apply key_in_true; reflexivity ] |]
  end.
  reflexivity.
Qed.

(** The field without a getter: [__init__] assigns userdata_path, the
    class has no [get_userdata_path]. *)
Lemma get_config_item_userdata_path (st : state) :
  get_config_item "userdata_path" st = (Returned (OValue VNone), st).
Proof. unfold get_config_item. by destruct (dict_get _ _). Qed.

Lemma get_config_item_undeclared (key : string) (st : state) :
  key ∉ declared_fields -> key ∉ other_getters ->
  get_config_item key st = (Returned (OValue VNone), st).
Proof.
  intros Hd Ho. unfold get_config_item.
  rewrite call_getter_undeclared by done. by destruct (dict_get _ _).
Qed.

(** *** Writing *)

Lemma rewrites_app (evs1 evs2 : list event) :
  rewrites (evs1 ++ evs2) = (rewrites evs1 + rewrites evs2)%nat.
Proof. unfold rewrites. by rewrite List.filter_app, length_app. Qed.

Lemma log_all (message level : string) (l : list string) (d : attrs) (w : world) :
  for_each l (fun m => _log message m level) {| self := d; outside := w |} =
  (Returned tt,
   {| self := d;
      outside := {| files := files w; environ := environ w;
                    events := events w ++ map (Logged level message) l |} |}).
Proof.
  revert w. induction l as [|m l IH]; intros w; simpl.
  - rewrite app_nil_r. by destruct w.
  - unfold bind, _log, emit. cbn [self outside files environ events].
    rewrite IH. cbn [files environ events]. by rewrite <- app_assoc.
Qed.

Lemma write_settings_to_file_eq (d : attrs) (w : world) :
  __write_settings_to_file {| self := d; outside := w |} =
  (fst (written d w), {| self := d; outside := snd (written d w) |}).
Proof.
  unfold __write_settings_to_file, written, ready.
  unfold bind, get_config_path, getattr, as_path, as_stat_path, os_path_exists, os_makedirs,
    get_config_as_dict, dump, ret, raise, emit, set_files.
  cbn [self outside files environ events].
  destruct (dict_get "config_path" d) as [[ |b|z|p|l|l]|] eqn:Ecp; try reflexivity.
  { by destruct (fits_c_int z). }
  assert (Hgo : forall fs1,
    (let (o1, st'1) :=
       let '(r, fs) := json_dump_to_file d (path_join p "settings.json") fs1 in
       (Returned r,
        {| self := d;
           outside := {| files := fs; environ := environ w;
                         events := events w ++ [Dumped d (path_join p "settings.json")] |} |}) in
     match o1 with
     | Returned a1 =>
         (if success a1 then fun st : state => (Returned tt, st)
          else fun st : state =>
            let (o2, st'2) :=
              for_each (errors a1) (fun message => _log "Exception:" message "exception") st in
            match o2 with
            | Returned _ =>
                (Raised (Exception "Exception in writing settings to file"), st'2)
            | Raised e => (Raised e, st'2)
            end) st'1
     | Raised e => (Raised e, st'1)
     end) =
    (let r := json_dump_to_file d (path_join p "settings.json") fs1 in
     let evs := events w ++ [Dumped d (path_join p "settings.json")] in
     if success (fst r) then
       (Returned tt,
        {| self := d;
           outside := {| files := snd r; environ := environ w; events := evs |} |})
     else
       (Raised (Exception "Exception in writing settings to file"),
        {| self := d;
           outside := {| files := snd r; environ := environ w;
                         events := evs ++ map (Logged "exception" "Exception:")
                                            (errors (fst r)) |} |}))).
  { intros fs1.
    destruct (json_dump_to_file d (path_join p "settings.json") fs1) as [[ok errs] fs2].
    cbn [success errors fst snd]. destruct ok; [reflexivity|].
    by rewrite log_all. }
  cbn [self outside files environ events].
  destruct (bool_decide (is_Some (files w !! p))).
  - cbn [self outside files environ events]. rewrite Ecp.
    unfold bind. cbn [self outside files environ events].
    rewrite Hgo. cbv zeta.
    by destruct (success _).
  - cbn [self outside files environ events]. rewrite Ecp.
    cbn [self outside files environ events].
    destruct (makedirs p (files w)) as [e|fs1]; [reflexivity|].
    cbn [self outside files environ events]. rewrite Ecp.
    unfold bind. cbn [self outside files environ events].
    rewrite Hgo. cbv zeta.
    by destruct (success _).
Qed.

Lemma written_dependable (d : attrs) (w : world) (p : string) :
  dependable ->
  dict_get "config_path" d = Some (VStr p) ->
  exists fs',
    written d w =
    (Returned tt,
     {| files := fs'; environ := environ w;
        events := events w ++ [Dumped d (path_join p "settings.json")] |}).
Proof.
  intros [Hmk Hdump] Hp. unfold written, ready. rewrite Hp.
  destruct (bool_decide (is_Some (files w !! p))).
  - rewrite Hdump. eauto.
  - destruct (Hmk p (files w)) as [fs1 ->]. rewrite Hdump. eauto.
Qed.

Lemma saving_loop (items : attrs) (ks : list string) (d : attrs) (w : world) :
  dependable ->
  (forall v, dict_get "config_path" items = Some v -> exists p, v = VStr p) ->
  (exists p, dict_get "config_path" d = Some (VStr p)) ->
  (forall k, k ∈ ks -> k ∈ dict_keys d) ->
  lower_closed d ->
  exists w',
    for_each ks (fun config_key =>
      let* present := lift (py_contains config_key (VDict items)) in
      if present then
        let* v := lift (py_getitem config_key (VDict items)) in
        set_config_item config_key v true
      else ret tt) {| self := d; outside := w |} =
    (Returned tt,
     {| self := overlay (fun k => dict_get k items) ks d; outside := w' |}) /\
    events w' = events w ++ bulk_dumps items ks d.
Proof.
  intros Hdep Hitems. unfold overlay.
  revert d w. induction ks as [|k ks IH]; intros d w Hcp Hks Hc.
  - exists w. split; [done|]. simpl. by rewrite app_nil_r.
  - assert (Hk : k ∈ dict_keys d) by (apply Hks; left).
    assert (Hrest : forall k', k' ∈ ks -> k' ∈ dict_keys d)
      by (intros k' Hk'; apply Hks; by right).
    cbn [for_each fold_left bulk_dumps]. unfold bind at 1. unfold bind at 1.
    unfold lift at 1. cbn [py_contains].
    destruct (dict_get k items) as [v|] eqn:Eg.
    + assert (Hin : key_in k (dict_keys items) = true)
        by (eapply key_in_true, dict_get_Some_key, Eg).
      rewrite Hin. unfold bind at 1. unfold lift at 1. cbn [py_getitem]. rewrite Eg.
      rewrite set_config_item_saving by (apply key_in_true, Hc, Hk).
      cbn [self outside]. rewrite write_settings_to_file_eq.
      assert (Hcp' : exists p, dict_get "config_path" (setattr d k v) = Some (VStr p)).
      { destruct (String.eqb_spec k "config_path") as [->|Hne].
        - rewrite dict_get_setattr_eq. destruct (Hitems _ Eg) as [p ->]. eauto.
        - by rewrite dict_get_setattr_ne. }
      destruct Hcp' as [p Hp].
      destruct (written_dependable _ w p Hdep Hp) as [fs' ->]. cbn [fst snd].
      destruct (IH (setattr d k v)
                  {| files := fs'; environ := environ w;
                     events := events w ++ [Dumped (setattr d k v)
                                              (path_join p "settings.json")] |})
        as (w' & Hrun & Hcount).
      * eauto.
      * intros k' Hk'. rewrite dict_keys_setattr_in by done. auto.
      * eapply lower_closed_keys; [|exact Hc]. by apply dict_keys_setattr_in.
      * exists w'. split; [exact Hrun|]. rewrite Hcount. cbn [events].
        unfold settings_file_of. rewrite Hp. by rewrite <- app_assoc.
    + assert (Hni : key_in k (dict_keys items) = false)
        by (by apply key_in_false, dict_get_None_key).
      rewrite Hni. unfold ret at 1. by apply IH.
Qed.

(** No call of [set_config_item] on a key of the snapshot adds a key: the
    loops of the class, which Python runs over the live keys of
    [__dict__], see the keys they started with. *)
Lemma set_config_item_keeps_keys (key : string) (v : value) (save : bool) (st : state) :
  key ∈ dict_keys (self st) ->
  dict_keys (self (snd (set_config_item key v save st))) = dict_keys (self st).
Proof.
  intros Hin. destruct (key_in (lower key) (dict_keys (self st))) eqn:Hk.
  - destruct save.
    + rewrite set_config_item_saving by done. destruct st as [d w].
      rewrite write_settings_to_file_eq. by apply dict_keys_setattr_in.
    + rewrite set_config_item_quiet by done. by apply dict_keys_setattr_in.
  - by rewrite set_config_item_unknown.
Qed.

Lemma rewrites_bulk_dumps (items : attrs) (ks : list string) (d : attrs) :
  rewrites (bulk_dumps items ks d) =
  length (List.filter (fun k => key_in k (dict_keys items)) ks).
Proof.
  revert d. induction ks as [|k ks IH]; intros d; [done|]. cbn [bulk_dumps List.filter].
  destruct (dict_get k items) as [v|] eqn:Eg.
  - assert (Hin : key_in k (dict_keys items) = true)
      by (eapply key_in_true, dict_get_Some_key, Eg).
    rewrite Hin. unfold rewrites in *. cbn. by rewrite IH.
  - assert (Hni : key_in k (dict_keys items) = false)
      by (by apply key_in_false, dict_get_None_key).
    rewrite Hni. apply IH.
Qed.


Lemma dict_get_rev_None (k : string) (d : attrs) :
  k ∉ dict_keys d -> dict_get k (rev d) = None.
Proof.
  intros Hk. apply dict_get_None_key. intros Hin. apply Hk.
  unfold dict_keys in *. rewrite map_rev in Hin.
  apply list_elem_of_In. apply list_elem_of_In in Hin. by apply in_rev.
Qed.

Lemma set_config_item_consistent (key : string) (v : value) (save : bool) (st : state) :
  consistent (self st) -> consistent (self (snd (set_config_item key v save st))).
Proof.
  intros Hc. destruct (key_in (lower key) (dict_keys (self st))) eqn:Hk.
  - destruct save.
    + rewrite set_config_item_saving by done. destruct st as [d w].
      rewrite write_settings_to_file_eq. by apply consistent_setattr.
    + rewrite set_config_item_quiet by done. by apply consistent_setattr.
  - by rewrite set_config_item_unknown.
Qed.

Lemma for_each_invariant {A} (P : state -> Prop) (l : list A) (body : A -> M unit)
    (st : state) :
  (forall x st', P st' -> P (snd (body x st'))) ->
  P st -> P (snd (for_each l body st)).
Proof.
  intros Hbody. revert st. induction l as [|x l IH]; intros st Hst; [done|].
  simpl. unfold bind. specialize (Hbody x st Hst).
  destruct (body x st) as [[[]|e] st']; simpl in *; auto.
Qed.

(** Every store the setters can reach from a consistent one is
    consistent. *)
Lemma set_bulk_config_items_consistent (items : value) (save : bool) (st : state) :
  consistent (self st) ->
  consistent (self (snd (set_bulk_config_items items save st))).
Proof.
  intros Hc. unfold set_bulk_config_items. unfold bind at 1.
  unfold get_config_keys, get_config_as_dict, bind at 1, ret. simpl.
  apply (for_each_invariant (fun st => consistent (self st))); [|done].
  intros k st' Hst'. unfold bind, lift.
  destruct (py_contains k items) as [[]|e]; simpl; try done.
  destruct (py_getitem k items) as [v|e]; simpl; try done.
  by apply set_config_item_consistent.
Qed.

End Store.

(** ** The claims about the store *)

Section StoreClaims.
Context `{Platform}.
Import Config.


(** C2 (amended).  For every declared field whose name is an environment
    variable at construction time, and that neither the persisted file nor
    a constructor override sets, the snapshot holds the environment value
    as the string it is, not coerced, in place of the default;
    [get_config_item] returns that string for every such field that has a
    getter. *)
Theorem C2_environment_verbatim (config_path : option string) (kwargs : attrs)
    (st0 : state) (fs1 : gmap string node) (file : attrs) (f s : string) :
  ready (config_dir config_path (environ (outside st0))) (files (outside st0)) = inr fs1 ->
  persisted fs1 (path_join (config_dir config_path (environ (outside st0)))
                   "settings.json") = VDict file ->
  str_or_falsy (kwargs_get "unmanic_path" kwargs) = true ->
  f ∈ declared_fields ->
  environ (outside st0) !! f = Some s ->
  f ∉ dict_keys file ->
  f ∉ dict_keys (explicit config_path kwargs) ->
  exists st,
    __init__ config_path kwargs st0 = (Returned tt, st) /\
    dict_get f (self st) = Some (VStr s) /\
    (f <> "userdata_path" -> get_config_item f st = (Returned (OValue (VStr s)), st)).
Proof.
  intros Hready Hpers Hup Hf Henv Hfile Hexp.
  destruct (init_runs config_path kwargs st0 fs1 file Hready Hpers Hup) as [evs Hinit].
  eexists. split; [exact Hinit|]. cbn [self].
  assert (Hv : dict_get f (constructed (environ (outside st0)) file config_path kwargs)
               = Some (VStr s)).
  { rewrite constructed_precedence by done. unfold precedence.
    rewrite dict_get_rev_None by done.
    apply dict_get_None_key in Hfile. by rewrite Hfile, Henv. }
  split; [exact Hv|]. intros Hne.
  apply get_config_item_field; [apply consistent_constructed|done..].
Qed.

(** C3 (amended).  [get_config_item(key)] returns the current value of the
    field when [key] is a declared field that has a [get_<key>] method
    (every declared field but userdata_path), and returns [None] without
    raising when [key] is no declared field and names no other [get_]
    method of the class (config_as_dict, config_keys, config_item). *)
Theorem C3_get_config_item (st : state) (key : string) :
  consistent (self st) ->
  (key ∈ declared_fields -> key <> "userdata_path" ->
   exists v, dict_get key (self st) = Some v /\
             get_config_item key st = (Returned (OValue v), st)) /\
  (key ∉ declared_fields -> key ∉ other_getters ->
   get_config_item key st = (Returned (OValue VNone), st)).
Proof.
  intros Hc. split.
  - intros Hk Hne. destruct (dict_get_key (self st) key) as [v Hv].
    { by apply Hc. }
    exists v. split; [done|]. by apply get_config_item_field.
  - apply get_config_item_undeclared.
Qed.

(** C4 (amended).  On a host where every write succeeds,
    [set_bulk_config_items] with persistence enabled rewrites the settings
    file once for each field of the snapshot that the mapping holds, each
    time right after that field is assigned and with the snapshot as it is
    then: as many rewrites as matching fields. *)
Theorem C4_one_rewrite_per_field (items : attrs) (st : state) :
  dependable ->
  consistent (self st) ->
  (forall v, dict_get "config_path" items = Some v -> exists p, v = VStr p) ->
  (exists p, dict_get "config_path" (self st) = Some (VStr p)) ->
  exists st',
    set_bulk_config_items (VDict items) true st = (Returned tt, st') /\
    self st' = overlay (fun k => dict_get k items) (dict_keys (self st)) (self st) /\
    events (outside st') =
      events (outside st) ++ bulk_dumps items (dict_keys (self st)) (self st) /\
    rewrites (events (outside st')) =
    (rewrites (events (outside st)) + length (matching items (self st)))%nat.
Proof.
  intros Hdep Hc Hitems Hcp. destruct st as [d w]. cbn [self outside] in *.
  destruct (saving_loop items (dict_keys d) d w Hdep Hitems Hcp) as (w' & Hrun & Hevs);
    [done | by apply consistent_lower_closed |].
  exists {| self := overlay (fun k => dict_get k items) (dict_keys d) d; outside := w' |}.
  split; [|split; [reflexivity | split; [exact Hevs |]]].
  2:{ cbn [outside]. by rewrite Hevs, rewrites_app, rewrites_bulk_dumps. }
  unfold set_bulk_config_items. unfold bind at 1.
  unfold get_config_keys, get_config_as_dict, bind, ret. cbn [self].
  exact Hrun.
Qed.

(** C5.  The claim fails on the code: a key that is a declared field only
    after lower-casing passes the test of [set_config_item] and is then
    assigned under its own spelling, so the snapshot gains the undeclared
    attribute UI_PORT. *)
Theorem C5_undeclared_key_retained (v : value) (w : world) :
  ("UI_PORT" ∉ declared_fields) /\
  exists st,
    set_config_item "UI_PORT" v false {| self := defaults; outside := w |} =
    (Returned tt, st) /\
    dict_keys (self st) = declared_fields ++ ["UI_PORT"].
Proof.
  split; [by apply key_in_false|].
  eexists. split; [by apply set_config_item_quiet|]. reflexivity.
Qed.


(** C10.  [set_config_item] with a declared key and persistence enabled
    assigns the value to the snapshot before it writes: when the dump
    reports a failure the exception reaches the caller and the snapshot
    keeps the new value. *)
Theorem C10_failed_write_keeps_value (st : state) (key : string) (v : value)
    (p : string) (fs1 : gmap string node) :
  consistent (self st) ->
  key ∈ declared_fields ->
  dict_get "config_path" (setattr (self st) key v) = Some (VStr p) ->
  ready p (files (outside st)) = inr fs1 ->
  success (fst (json_dump_to_file (setattr (self st) key v)
                  (path_join p "settings.json") fs1)) = false ->
  exists w',
    set_config_item key v true st =
    (Raised (Exception "Exception in writing settings to file"),
     {| self := setattr (self st) key v; outside := w' |}) /\
    dict_get key (setattr (self st) key v) = Some v /\
    rewrites (events w') = S (rewrites (events (outside st))).
Proof.
  intros Hc Hk Hp Hready Hfail. destruct st as [d w]. cbn [self outside] in *.
  rewrite set_config_item_saving.
  2:{ cbn [self]. rewrite (declared_lower _ Hk). by apply key_in_true, Hc. }
  cbn [self outside]. rewrite write_settings_to_file_eq.
  unfold written. rewrite Hp, Hready. cbv zeta. rewrite Hfail. cbn [fst snd].
  eexists. split; [reflexivity|]. split; [apply dict_get_setattr_eq|].
  cbn [events]. rewrite !rewrites_app. unfold rewrites at 3.
  assert (Hlog : forall l, List.filter is_dump (map (Logged "exception" "Exception:") l) = []).
  { induction l; [done|]. done. }
  rewrite Hlog. cbn. lia.
Qed.

End StoreClaims.

(** ** The claims about the store, on concrete hosts *)

Lemma sound_host_dependable (h : string) : @dependable (sound_host h).
Proof. split; simpl; eauto. Qed.


Lemma C2_environment_verbatim_witness :
  exists st,
    @Config.__init__ (sound_host home) None [] (fresh ∅ port_environ) = (Returned tt, st) /\
    Config.get_config_item "ui_port" st = (Returned (Config.OValue (VStr "9999")), st).
Proof.
  destruct (@C2_environment_verbatim (sound_host home) None [] (fresh ∅ port_environ)
              made_config_dir [] "ui_port" "9999")
    as (st & Hinit & _ & Hget).
  - vm_compute. reflexivity.
  - vm_compute. reflexivity.
  - reflexivity.
  - apply key_in_true. reflexivity.
  - vm_compute. reflexivity.
  - apply key_in_false. reflexivity.
  - apply key_in_false. reflexivity.
  - exists st. split; [exact Hinit|]. by apply Hget.
Defined.

(** C2, as stated, fails: ui_port is an integer field, the environment
    gives "9999", and the store answers the string "9999", not the
    integer. *)
Lemma C2_coercion_counterexample :
  let st := snd (@Config.__init__ (sound_host home) None [] (fresh ∅ port_environ)) in
  @semantic_type (sound_host home) "ui_port" = Some TInteger /\
  fst (Config.get_config_item "ui_port" st) = Returned (Config.OValue (VStr "9999")) /\
  has_type TInteger (VStr "9999") = false /\
  forall z, fst (Config.get_config_item "ui_port" st) <> Returned (Config.OValue (VInt z)).
Proof.
  assert (E : fst (Config.get_config_item "ui_port"
                     (snd (@Config.__init__ (sound_host home) None [] (fresh ∅ port_environ))))
              = Returned (Config.OValue (VStr "9999"))) by (vm_compute; reflexivity).
  cbv zeta. rewrite E. repeat split; done.
Qed.

Lemma C3_get_config_item_witness :
  Config.get_config_item "ui_port" default_store =
    (Returned (Config.OValue (VInt 8888)), default_store) /\
  Config.get_config_item "no_such_field" default_store =
    (Returned (Config.OValue VNone), default_store).
Proof.
  split.
  - destruct (C3_get_config_item default_store "ui_port"
                (@consistent_defaults (sound_host home))) as [Hfield _].
    destruct Hfield as (v & Hv & Hget).
    + apply key_in_true. reflexivity.
    + discriminate.
    + injection Hv as <-. exact Hget.
  - apply (C3_get_config_item default_store "no_such_field"
             (@consistent_defaults (sound_host home)));
      apply key_in_false; reflexivity.
Defined.

(** C3, as stated, fails: for a key that is no declared field the call
    returns [None]; nothing is raised. *)
Lemma C3_not_found_counterexample :
  ("no_such_field" ∉ @Config.declared_fields) /\
  fst (Config.get_config_item "no_such_field" default_store) =
    Returned (Config.OValue VNone) /\
  forall e, fst (Config.get_config_item "no_such_field" default_store) <> Raised e.
Proof.
  split; [by apply key_in_false|]. split; [reflexivity|]. intros e. discriminate.
Qed.

Lemma C4_one_rewrite_per_field_witness :
  exists st',
    @Config.set_bulk_config_items (sound_host home) (VDict two_fields) true default_store =
      (Returned tt, st') /\
    rewrites (events (outside st')) = 2%nat.
Proof.
  destruct (@C4_one_rewrite_per_field (sound_host home) two_fields default_store)
    as (st' & Hrun & _ & _ & Hcount).
  - apply sound_host_dependable.
  - apply consistent_defaults.
  - intros v Hv. discriminate.
  - eexists. reflexivity.
  - exists st'. split; [exact Hrun|]. rewrite Hcount. reflexivity.
Defined.

(** C4, as stated, fails: a mapping with two declared fields rewrites the
    settings file twice, the first time with only ui_port applied; an
    empty mapping rewrites it not at all. *)
Lemma C4_single_rewrite_counterexample :
  let run items :=
    @Config.set_bulk_config_items (sound_host home) (VDict items) true default_store in
  fst (run two_fields) = Returned tt /\
  rewrites (events (outside (snd (run two_fields)))) = 2%nat /\
  (exists d1 d2 f,
     events (outside (snd (run two_fields))) = [Dumped d1 f; Dumped d2 f] /\
     dict_get "ui_port" d1 = Some (VInt 9999) /\
     dict_get "debugging" d1 = Some (VBool false) /\
     dict_get "debugging" d2 = Some (VBool true)) /\
  fst (run []) = Returned tt /\
  rewrites (events (outside (snd (run [])))) = 0%nat.
Proof.
  cbv zeta. split; [vm_compute; reflexivity|]. split; [vm_compute; reflexivity|].
  split; [|split; vm_compute; reflexivity].
  eexists _, _, _. split; [vm_compute; reflexivity|].
  repeat split; reflexivity.
Qed.



Lemma C10_failed_write_keeps_value_witness :
  exists w',
    @Config.set_config_item (readonly_host home) "ui_port" (VInt 9999) true
      {| self := @Config.defaults (readonly_host home); outside := quiet_world |} =
      (Raised (Exception "Exception in writing settings to file"),
       {| self := setattr (@Config.defaults (readonly_host home)) "ui_port" (VInt 9999);
          outside := w' |}) /\
    dict_get "ui_port" (setattr (@Config.defaults (readonly_host home)) "ui_port" (VInt 9999))
      = Some (VInt 9999).
Proof.
  destruct (@C10_failed_write_keeps_value (readonly_host home)
              {| self := @Config.defaults (readonly_host home); outside := quiet_world |}
              "ui_port" (VInt 9999) "/home/unmanic/.unmanic/config" made_config_dir)
    as (w' & Hrun & Hget & _).
  - apply consistent_defaults.
  - apply key_in_true. reflexivity.
  - reflexivity.
  - vm_compute. reflexivity.
  - reflexivity.
  - exists w'. split; [exact Hrun | exact Hget].
Defined.

(** ** Properties of the table-query contract *)

Section Contract.
Context `{Api.Plugins}.
Import Api.

Lemma deserialize_all_ints (l : list value) (i : nat)
    (errs : list (nat * messages)) (vs : list value) :
  deserialize_all
    (fun x => match x with
              | VNone => inl (Messages ["Field may not be null."])
              | _ => deserialize Int x
              end) l i = (errs, vs) ->
  exists ids, vs = map VInt ids.
Proof.
  revert i errs vs. induction l as [|v l IH]; intros i errs vs; simpl.
  - intros [= <- <-]. by exists [].
  - destruct (deserialize_all _ l (S i)) as [errs' vs'] eqn:E.
    destruct (IH _ _ _ E) as [ids ->].
    destruct v as [ |b|z|s|l'|d]; simpl; try (intros [= <- <-]; by exists ids).
    + intros [= <- <-]. by exists (z :: ids).
    + destruct (py_int s) as [z|]; intros [= <- <-]; [by exists (z :: ids) | by exists ids].
Qed.

Lemma load_id_list (body : value) (d : attrs) :
  load RequestTableUpdateByIdList body = inr d ->
  exists ids, ids <> [] /\ d = [("id_list", VList (map VInt ids))].
Proof.
  unfold load. destruct body as [ | | | | |data]; try discriminate.
  unfold RequestTableUpdateByIdList, load_fields, load_field.
  cbn [name required ftype validate load_default].
  destruct (dict_get "id_list" data) as [v|]; [|discriminate].
  destruct v as [ |b|z|s|l|d']; try discriminate.
  cbn [deserialize].
  destruct (deserialize_all _ l 0) as [errs vs] eqn:E.
  destruct (deserialize_all_ints _ _ _ _ E) as [ids ->].
  destruct errs; [|discriminate].
  cbn [flat_map check app]. rewrite length_map.
  destruct ids as [|z ids]; [discriminate|].
  cbn [length Nat.ltb Nat.leb app].
  destruct (unknown_fields _ data); [|discriminate].
  intros [= <-]. by exists (z :: ids).
Qed.

Lemma load_empty_id_list (data : attrs) :
  dict_get "id_list" data = Some (VList []) ->
  exists msgs,
    load RequestTableUpdateByIdList (VDict data) = inl msgs /\
    ("id_list", Messages ["Shorter than minimum length 1."]) ∈ msgs.
Proof.
  intros Hid. unfold load, RequestTableUpdateByIdList, load_fields, load_field.
  cbn [name required ftype validate load_default]. rewrite Hid.
  eexists. split; [reflexivity|]. left.
Qed.

Lemma mutate_invalid (op : operation) (call_method failure : string) (h : handler)
    (msgs : list (string * messages)) :
  load RequestTableUpdateByIdList (request_body h) = inl msgs ->
  mutate op call_method failure h =
  (Returned tt,
   {| request_body := request_body h; diagnostic := diagnostic h;
      status := STATUS_ERROR_EXTERNAL;
      status_reason := "Failed request schema validation";
      error_messages := msgs;
      responses := responses h ++
        [ErrorEnvelope STATUS_ERROR_EXTERNAL "Failed request schema validation" msgs
           (diagnostic h)];
      app_log := app_log h ++
        ["BaseApiError." +:+ call_method +:+ ": " +:+ "Failed request schema validation"];
      calls := calls h |}).
Proof.
  intros Hload. unfold mutate, try_except, bind, read_json_request. by rewrite Hload.
Qed.

Lemma mutate_valid (op : operation) (call_method failure : string) (h : handler)
    (d : attrs) :
  load RequestTableUpdateByIdList (request_body h) = inr d ->
  let id_list := get_or "id_list" (VList []) d in
  mutate op call_method failure h =
  match helper op id_list with
  | inr v =>
      if truthy v then respond Success (called op id_list h)
      else (set_status STATUS_ERROR_INTERNAL failure >> write_error) (called op id_list h)
  | inl (BaseApiError msg) =>
      log_error ("BaseApiError." +:+ call_method +:+ ": " +:+ msg) (called op id_list h)
  | inl (OtherException str) =>
      (set_status STATUS_ERROR_INTERNAL str >> write_error) (called op id_list h)
  | inl (NonException name) => (Raised (NonException name), called op id_list h)
  end.
Proof.
  intros Hload id_list. unfold mutate, try_except, bind, read_json_request, call.
  rewrite Hload. fold id_list. fold (called op id_list h).
  destruct (helper op id_list) as [[msg|str|name]|v]; [reflexivity..|].
  by destruct (truthy v).
Qed.

Lemma endpoint_mutate (op : operation) :
  exists call_method, endpoint op = mutate op call_method (failure_reason op).
Proof. destruct op; eexists; reflexivity. Qed.

Lemma unknown_fields_undeclared (s : schema) (data : attrs) (k : string) :
  k ∈ map fst (unknown_fields s data) -> key_in k (map name s) = false.
Proof.
  unfold unknown_fields. rewrite map_map. cbn [fst]. rewrite map_id.
  intros Hk%list_elem_of_In%filter_In. by apply negb_true_iff, Hk.
Qed.

(** An integer in [start] or [length] never draws a message, whatever
    else the request holds. *)
Lemma integer_field_accepted (data : attrs) (k : string) (z : Z)
    (errs : list (string * messages)) :
  k = "start" \/ k = "length" ->
  dict_get k data = Some (VInt z) ->
  load RequestTableDataSchema (VDict data) = inl errs ->
  k ∉ map fst errs.
Proof.
  intros Hk Hz. unfold load.
  destruct (load_fields RequestTableDataSchema data) as [ferrs loaded] eqn:Ef.
  assert (Hf : k ∉ map fst ferrs).
  { revert Ef. unfold RequestTableDataSchema, load_fields.
    destruct Hk as [-> | ->].
    - unfold load_field at 5. cbn [name ftype required load_default validate].
      rewrite Hz. cbn [deserialize flat_map].
      repeat match goal with
             | |- context [load_field ?f data] => destruct (load_field f data) as [?|[?|]]
             end;
        intros [= <- <-]; cbn [map fst name];
        rewrite ?not_elem_of_cons; repeat split; (discriminate || apply not_elem_of_nil).
    - unfold load_field at 4. cbn [name ftype required load_default validate].
      rewrite Hz. cbn [deserialize flat_map].
      repeat match goal with
             | |- context [load_field ?f data] => destruct (load_field f data) as [?|[?|]]
             end;
        intros [= <- <-]; cbn [map fst name];
        rewrite ?not_elem_of_cons; repeat split; (discriminate || apply not_elem_of_nil). }
  destruct (ferrs ++ unknown_fields RequestTableDataSchema data) as [|e all] eqn:Eall;
    [discriminate|].
  intros [= <-]. rewrite <- Eall, map_app. intros [Hin|Hin]%elem_of_app; [done|].
  apply unknown_fields_undeclared in Hin. destruct Hk as [-> | ->]; discriminate.
Qed.

(** C7 (amended).  Validation of a table-query request gives [start] the
    default 0 and [length] the default 10 and accepts every integer for
    either, a negative [start] and a [length] of zero or less included:
    such a value passes unchanged, and no validation message is ever
    attached to an integer [start] or [length]. *)
Theorem C7_table_request_defaults (a b : Z) :
  load RequestTableDataSchema (VDict []) =
    inr [("start", VInt 0); ("length", VInt 10); ("search_value", VStr EmptyString);
         ("order_by", VStr EmptyString)] /\
  load RequestTableDataSchema (VDict [("start", VInt a); ("length", VInt b)]) =
    inr [("start", VInt a); ("length", VInt b); ("search_value", VStr EmptyString);
         ("order_by", VStr EmptyString)] /\
  (forall data errs,
     dict_get "start" data = Some (VInt a) ->
     dict_get "length" data = Some (VInt b) ->
     load RequestTableDataSchema (VDict data) = inl errs ->
     ("start" ∉ map fst errs) /\ ("length" ∉ map fst errs)).
Proof.
  split; [reflexivity|]. split; [reflexivity|].
  intros data errs Hstart Hlength Hload. split.
  - eapply integer_field_accepted; eauto.
  - eapply integer_field_accepted; eauto.
Qed.

(** C8.  On each bulk endpoint (enable, disable, update, remove) a request
    whose [id_list] is empty fails the validation of its schema (minimum
    length 1): the 400-class error goes out and no helper of the
    collaborator is called; whatever the request, a helper is only ever
    called with a list of at least one integer. *)
Theorem C8_empty_id_list_rejected (op : operation) (h : handler) :
  (forall data,
     request_body h = VDict data ->
     dict_get "id_list" data = Some (VList []) ->
     exists msgs h',
       endpoint op h = (Returned tt, h') /\
       ("id_list", Messages ["Shorter than minimum length 1."]) ∈ msgs /\
       calls h' = calls h /\
       responses h' = responses h ++
         [ErrorEnvelope STATUS_ERROR_EXTERNAL "Failed request schema validation" msgs
            (diagnostic h)]) /\
  (forall c,
     c ∈ calls (snd (endpoint op h)) ->
     c ∈ calls h \/ exists ids, ids <> [] /\ c = (op, VList (map VInt ids))).
Proof.
  destruct (endpoint_mutate op) as [cm ->]. split.
  - intros data Hbody Hid. destruct (load_empty_id_list data Hid) as (msgs & Hload & Hin).
    rewrite <- Hbody in Hload. exists msgs. eexists.
    split; [by apply mutate_invalid|]. by repeat split.
  - intros c. destruct (load RequestTableUpdateByIdList (request_body h)) as [msgs|d] eqn:E.
    + rewrite (mutate_invalid _ _ _ _ _ E). cbn [snd calls]. by left.
    + rewrite (mutate_valid _ _ _ _ _ E).
      destruct (load_id_list _ _ E) as (ids & Hne & ->).
      assert (Hc : c ∈ calls h ++ [(op, VList (map VInt ids))] ->
                   c ∈ calls h \/ exists ids0, ids0 <> [] /\ c = (op, VList (map VInt ids0))).
      { intros [Hc|Hc%list_elem_of_singleton]%elem_of_app; [by left|]. right. eauto. }
      change (get_or "id_list" (VList []) [("id_list", VList (map VInt ids))])
        with (VList (map VInt ids)).
      destruct (helper op (VList (map VInt ids))) as [[msg|str|name]|v]; [exact Hc..|].
      destruct (truthy v); exact Hc.
Qed.

(** C9.  Each bulk endpoint (enable, disable, update, remove) answers a
    valid request with exactly one outcome for the whole id list:
    [{success: true}] when the collaborator reports success, and one
    500-class error envelope when it reports failure, its reason fixed by
    the endpoint alone and its messages empty, so nothing in it tells
    which ids failed. *)
Theorem C9_one_aggregate_outcome (op : operation) (body : value)
    (trace : option (list string)) (d : attrs) (v : value) :
  load RequestTableUpdateByIdList body = inr d ->
  helper op (get_or "id_list" (VList []) d) = inr v ->
  exists h',
    endpoint op (incoming body trace) = (Returned tt, h') /\
    calls h' = [(op, get_or "id_list" (VList []) d)] /\
    responses h' =
      [if truthy v then Success
       else ErrorEnvelope STATUS_ERROR_INTERNAL (failure_reason op) [] trace] /\
    status h' = (if truthy v then 200 else STATUS_ERROR_INTERNAL).
Proof.
  intros Hload Hhelp. destruct (endpoint_mutate op) as [cm ->].
  rewrite (mutate_valid _ _ _ (incoming body trace) d Hload). cbv zeta. rewrite Hhelp.
  destruct (truthy v); eexists; (split; [reflexivity|]); by repeat split.
Qed.

End Contract.

(** ** The contract on concrete requests *)

(** C7, as stated, fails: a request with [start = -1] and [length = 0]
    passes validation with those values. *)
Lemma C7_negative_start_counterexample :
  exists d,
    Api.load Api.RequestTableDataSchema (VDict [("start", VInt (-1)); ("length", VInt 0)])
      = inr d /\
    dict_get "start" d = Some (VInt (-1)) /\
    dict_get "length" d = Some (VInt 0) /\
    (-1 < 0)%Z /\ (0 <= 0)%Z.
Proof. eexists. split; [reflexivity|]. repeat split; (reflexivity || lia). Qed.

Lemma C7_table_request_defaults_witness :
  Api.load Api.RequestTableDataSchema (VDict [("start", VInt (-1)); ("length", VInt 0)]) =
    inr [("start", VInt (-1)); ("length", VInt 0); ("search_value", VStr EmptyString);
         ("order_by", VStr EmptyString)] /\
  forall errs,
    Api.load Api.RequestTableDataSchema
      (VDict [("start", VInt (-1)); ("length", VInt 0); ("order_direction", VStr "up")])
      = inl errs ->
    ("start" ∉ map fst errs) /\ ("length" ∉ map fst errs).
Proof.
  destruct (C7_table_request_defaults (-1) 0) as (_ & Haccept & Hnever).
  split; [exact Haccept|].
  intros errs Hload.
  apply (Hnever [("start", VInt (-1)); ("length", VInt 0); ("order_direction", VStr "up")]);
    [reflexivity | reflexivity | exact Hload].
Defined.

Lemma C8_empty_id_list_rejected_witness :
  exists msgs h',
    @Api.endpoint working_plugins Api.Remove (Api.incoming no_ids None) = (Returned tt, h') /\
    Api.calls h' = [] /\
    Api.responses h' =
      [Api.ErrorEnvelope 400 "Failed request schema validation" msgs None].
Proof.
  destruct (@C8_empty_id_list_rejected working_plugins Api.Remove (Api.incoming no_ids None))
    as [Hempty _].
  destruct (Hempty [("id_list", VList [])]) as (msgs & h' & Hrun & _ & Hcalls & Hresp);
    [reflexivity | reflexivity |].
  exists msgs, h'. split; [exact Hrun|]. split; [exact Hcalls | exact Hresp].
Defined.

Lemma C9_one_aggregate_outcome_witness :
  exists h',
    @Api.endpoint failing_plugins Api.Enable (Api.incoming three_ids None) =
      (Returned tt, h') /\
    Api.responses h' =
      [Api.ErrorEnvelope 500 "Failed to enable the plugins by their IDs" [] None].
Proof.
  destruct (@C9_one_aggregate_outcome failing_plugins Api.Enable three_ids None
              [("id_list", VList [VInt 1; VInt 2; VInt 3])] (VBool false))
    as (h' & Hrun & _ & Hresp & _); [reflexivity | reflexivity |].
  exists h'. split; [exact Hrun | exact Hresp].
Defined.

(** * Further properties of the store *)

Section StoreMore.
Context `{Platform}.
Import Config.

Lemma bind_raised {A B} (m : M A) (k : A -> M B) (st s : state) (e : exn) :
  m st = (Raised e, s) -> bind m k st = (Raised e, s).
Proof. intros E. unfold bind. by rewrite E. Qed.

Lemma setattr_same (d : attrs) (k : string) (v : value) :
  dict_get k d = Some v -> setattr d k v = d.
Proof.
  induction d as [|[k' v'] d IH]; simpl; [done|].
  destruct (String.eqb_spec k' k) as [->|Hne].
  - by intros [= ->].
  - intros Hg. by rewrite IH.
Qed.

Lemma overlay_fixed (f : string -> option value) (ks : list string) (d : attrs) :
  (forall k v, k ∈ ks -> f k = Some v -> dict_get k d = Some v) ->
  overlay f ks d = d.
Proof.
  unfold overlay. induction ks as [|k ks IH]; intros Hf; simpl; [done|].
  destruct (f k) as [v|] eqn:Ef.
  - rewrite setattr_same by (apply Hf; [left|done]).
    apply IH. intros k' v' Hk'. apply Hf. by right.
  - apply IH. intros k' v' Hk'. apply Hf. by right.
Qed.

(** X1.  A store built with nothing in the environment for its fields,
    no (or an empty, or an unreadable) settings file and no constructor
    argument holds exactly the defaults of [__init__], in their order. *)
Theorem defaults_when_nothing_overrides (st0 : state) (fs1 : gmap string node) :
  (forall f, f ∈ declared_fields -> environ (outside st0) !! f = None) ->
  ready (config_dir None (environ (outside st0))) (files (outside st0)) = inr fs1 ->
  persisted fs1 (path_join (config_dir None (environ (outside st0))) "settings.json")
    = VDict [] ->
  exists st,
    __init__ None [] st0 = (Returned tt, st) /\
    self st = defaults /\
    get_config_item "ui_port" st = (Returned (OValue (VInt 8888)), st) /\
    get_config_item "number_of_workers" st = (Returned (OValue (VInt 1)), st).
Proof.
  intros Henv Hready Hpers.
  destruct (init_runs None [] st0 fs1 [] Hready Hpers eq_refl) as [evs Hinit].
  assert (Hself : constructed (environ (outside st0)) [] None [] = defaults).
  { unfold constructed. cbn [explicit given kwargs_get dict_get truthy app assign_all fold_left].
    rewrite overlay_nothing by done. apply overlay_fixed.
    intros k v Hk. by rewrite Henv. }
  eexists. split; [exact Hinit|]. cbn [self]. rewrite Hself.
  split; [done|].
  split; (apply get_config_item_field; cbn [self];
    [ apply consistent_defaults | apply key_in_true; reflexivity | discriminate
    | reflexivity ]).
Qed.

(** X2.  On a consistent store, a value assigned to a declared field with
    [set_config_item] is the value [get_config_item] then returns (for
    every field with a getter), and no other attribute changes. *)
Theorem set_then_get (st : state) (f : string) (v : value) :
  consistent (self st) ->
  f ∈ declared_fields ->
  exists st',
    set_config_item f v false st = (Returned tt, st') /\
    outside st' = outside st /\
    (f <> "userdata_path" -> get_config_item f st' = (Returned (OValue v), st')) /\
    (forall g, g <> f -> dict_get g (self st') = dict_get g (self st)).
Proof.
  intros Hc Hf.
  assert (Hk : key_in (lower f) (dict_keys (self st)) = true).
  { rewrite (declared_lower _ Hf). by apply key_in_true, Hc. }
  eexists. split; [by apply set_config_item_quiet|]. cbn [self outside].
  split; [done|]. split.
  - intros Hne. apply get_config_item_field; cbn [self]; try done.
    + by apply consistent_setattr.
    + apply dict_get_setattr_eq.
  - intros g Hg. by apply dict_get_setattr_ne.
Qed.

(** X3.  Whatever becomes of the write (done, refused by the host, an
    [OSError] from [os.makedirs], a [TypeError] or [OverflowError] on the
    path), the snapshot after [set_config_item] with a key of ASCII
    characters is fixed by key and value alone: the value is assigned
    under [key] when [key.lower()] is a key of the snapshot, and nothing
    changes otherwise. *)
Theorem snapshot_after_set_config_item (st : state) (key : string) (v : value)
    (save : bool) :
  isascii key = true ->
  self (snd (set_config_item key v save st)) =
  if key_in (lower key) (dict_keys (self st)) then setattr (self st) key v
  else self st.
Proof.
  intros _. destruct (key_in (lower key) (dict_keys (self st))) eqn:Hk.
  - destruct save.
    + rewrite set_config_item_saving by done. destruct st as [d w].
      by rewrite write_settings_to_file_eq.
    + by rewrite set_config_item_quiet.
  - by rewrite set_config_item_unknown.
Qed.

Lemma for_each_invariant_in {A} (P : state -> Prop) (l : list A) (body : A -> M unit)
    (st : state) :
  (forall x st', x ∈ l -> P st' -> P (snd (body x st'))) ->
  P st -> P (snd (for_each l body st)).
Proof.
  revert st. induction l as [|x l IH]; intros st Hbody Hst; [done|].
  simpl. unfold bind. pose proof (Hbody x st (list_elem_of_here _ _) Hst) as Hx.
  destruct (body x st) as [[[]|e] st']; simpl in *; [|done].
  apply IH; [|done]. intros y st'' Hy. apply Hbody. by right.
Qed.

(** X4.  [set_bulk_config_items] never adds or removes an attribute: for
    every JSON value handed to it, with or without persistence, and also
    when it raises, the keys of the snapshot are the ones it started
    with; keys of the mapping that the snapshot does not hold are
    dropped. *)
Theorem bulk_keeps_keys (items : value) (save : bool) (st : state) :
  dict_keys (self (snd (set_bulk_config_items items save st))) = dict_keys (self st).
Proof.
  unfold set_bulk_config_items. unfold bind at 1.
  unfold get_config_keys, get_config_as_dict, bind at 1, ret. cbn [self].
  apply (for_each_invariant_in (fun st' => dict_keys (self st') = dict_keys (self st)));
    [|done].
  intros k st' Hk E. unfold bind, lift.
  destruct (py_contains k items) as [[]|e]; cbn [snd]; try done.
  destruct (py_getitem k items) as [v|e]; cbn [snd]; try done.
  rewrite set_config_item_keeps_keys; [done|]. by rewrite E.
Qed.

(** X5.  Without persistence, applying a mapping twice with
    [set_bulk_config_items] leaves the store as applying it once. *)
Theorem bulk_idempotent (items : attrs) (st : state) :
  consistent (self st) ->
  exists st',
    set_bulk_config_items (VDict items) false st = (Returned tt, st') /\
    set_bulk_config_items (VDict items) false st' = (Returned tt, st').
Proof.
  intros Hc. eexists. split.
  - apply set_bulk_config_items_quiet. by apply consistent_lower_closed.
  - assert (Hk : dict_keys (overlay (fun k => dict_get k items) (dict_keys (self st)) (self st))
                 = dict_keys (self st)) by (by apply dict_keys_overlay).
    rewrite set_bulk_config_items_quiet.
    2:{ cbn [self]. eapply lower_closed_keys; [exact Hk|]. by apply consistent_lower_closed. }
    cbn [self outside]. rewrite Hk. f_equal. f_equal.
    apply overlay_fixed. intros k v Hin Hv.
    rewrite dict_get_overlay_in by (by apply key_in_true). by rewrite Hv.
Qed.

(** [__import_settings_from_file], once the directory is settled. *)
Lemma import_file_steps (config_path : option string) (d : attrs) (w : world)
    (cp : string) (fs1 : gmap string node) :
  given config_path = Some cp \/
  (given config_path = None /\ dict_get "config_path" d = Some (VStr cp)) ->
  ready cp (files w) = inr fs1 ->
  __import_settings_from_file config_path {| self := d; outside := w |} =
  (let* there := os_path_exists (path_join cp "settings.json") in
   if there then
     let* data := load_settings (path_join cp "settings.json") in
     set_bulk_config_items data false
   else ret tt)
    {| self := d; outside := {| files := fs1; environ := environ w; events := events w |} |}.
Proof.
  intros Hcp Hready.
  assert (E : (match given config_path with
               | Some p => ret p
               | None => bind get_config_path as_stat_path
               end) {| self := d; outside := w |} =
              (Returned cp, {| self := d; outside := w |})).
  { destruct Hcp as [-> | [-> Hd]]; [done|].
    unfold bind, get_config_path, getattr. cbn [self]. by rewrite Hd. }
  unfold __import_settings_from_file. rewrite (bind_ok _ _ _ _ _ E).
  erewrite (bind_ok (os_path_exists cp)) by reflexivity. cbn [outside files].
  unfold ready in Hready.
  assert (Hdir : ((if bool_decide (is_Some (files w !! cp)) then ret tt
                   else os_makedirs cp) {| self := d; outside := w |}) =
                 (Returned tt,
                  {| self := d;
                     outside := {| files := fs1; environ := environ w;
                                   events := events w |} |})).
  { destruct (bool_decide (is_Some (files w !! cp))).
    - injection Hready as <-. by destruct w.
    - unfold os_makedirs. cbn [outside files]. by rewrite Hready. }
  by rewrite (bind_ok _ _ _ _ _ Hdir).
Qed.

Lemma bulk_on_scalar (v : value) (save : bool) (st : state) :
  scalar v = true -> dict_keys (self st) <> [] ->
  set_bulk_config_items v save st = (Raised TypeError, st).
Proof.
  intros Hv Hk. destruct st as [d w]. unfold set_bulk_config_items. unfold bind at 1.
  unfold get_config_keys, get_config_as_dict, bind at 1, ret. cbn [self] in *.
  destruct (dict_keys d) as [|k ks]; [done|].
  cbn [for_each]. unfold bind, lift. by destruct v.
Qed.

(** X6.  A settings file that holds valid JSON which is no container
    ([null], [true], a number) is not skipped like a corrupt one: the
    loop of [set_bulk_config_items] raises [TypeError] on its first key
    and the constructor fails with it. *)
Theorem scalar_settings_file_is_fatal (config_path : option string) (kwargs : attrs)
    (st0 : state) (fs1 : gmap string node) (v : value) :
  ready (config_dir config_path (environ (outside st0))) (files (outside st0)) = inr fs1 ->
  fs1 !! path_join (config_dir config_path (environ (outside st0))) "settings.json"
    = Some (File (Json v)) ->
  scalar v = true ->
  exists st, __init__ config_path kwargs st0 = (Raised TypeError, st).
Proof.
  intros Hready Hfile Hv. destruct st0 as [d0 w]. cbn [outside] in *.
  set (d1 := overlay (fun k => VStr <$> environ w !! k) declared_fields defaults).
  assert (Hk1 : dict_keys d1 = declared_fields).
  { unfold d1. etrans; [apply dict_keys_overlay|done]. intros k Hk. exact Hk. }
  assert (E1 : (set_self defaults >> __import_settings_from_env)
                 {| self := d0; outside := w |} =
               (Returned tt, {| self := d1; outside := w |})).
  { erewrite (bind_ok (set_self defaults)) by reflexivity.
    rewrite import_settings_from_env_runs
      by apply consistent_lower_closed, consistent_defaults.
    reflexivity. }
  assert (Hcp : given config_path = Some (config_dir config_path (environ w)) \/
                (given config_path = None /\
                 dict_get "config_path" d1 = Some (VStr (config_dir config_path (environ w))))).
  { unfold config_dir. destruct (given config_path) as [p|]; [by left|]. right.
    split; [done|]. unfold d1. rewrite dict_get_overlay_in by reflexivity.
    destruct (environ w !! "config_path"); reflexivity. }
  eexists. unfold __init__.
  do 4 (apply bind_raised). rewrite (bind_ok _ _ _ _ _ E1).
  rewrite (import_file_steps _ _ _ _ _ Hcp Hready). clearbody d1.
  erewrite (bind_ok (os_path_exists _)) by reflexivity. cbn [outside files].
  rewrite bool_decide_eq_true_2 by (rewrite Hfile; eauto).
  unfold bind at 1. unfold load_settings. cbn [outside files]. rewrite Hfile.
  apply bulk_on_scalar; [done|]. cbn [self]. by rewrite Hk1.
Qed.

(** X7.  A settings file that cannot be opened or parsed is logged once
    as an exception and skipped: [__import_settings_from_file] returns,
    and the snapshot is as it was. *)
Theorem unreadable_settings_file_is_skipped (config_path : option string) (d : attrs)
    (w : world) (cp : string) (fs1 : gmap string node) (err : string) :
  lower_closed d ->
  given config_path = Some cp \/
  (given config_path = None /\ dict_get "config_path" d = Some (VStr cp)) ->
  ready cp (files w) = inr fs1 ->
  fs1 !! path_join cp "settings.json" = Some (File (Unreadable err)) ->
  __import_settings_from_file config_path {| self := d; outside := w |} =
  (Returned tt,
   {| self := d;
      outside :=
        {| files := fs1; environ := environ w;
           events := events w ++
             [Logged "exception" "Exception in reading saved settings from file:" err] |} |}).
Proof.
  intros Hc Hcp Hready Hfile. rewrite (import_file_steps _ _ _ _ _ Hcp Hready).
  erewrite (bind_ok (os_path_exists _)) by reflexivity. cbn [outside files].
  rewrite bool_decide_eq_true_2 by (rewrite Hfile; eauto).
  unfold bind at 1. unfold load_settings. cbn [outside files]. rewrite Hfile.
  unfold bind, ret, _log, emit. cbn [outside files self environ events].
  rewrite set_bulk_config_items_quiet by done. cbn [outside self].
  by rewrite overlay_nothing.
Qed.

(** *** What never rewrites the settings file *)

Lemma silent_ret {A} (a : A) : silent (ret a).
Proof. done. Qed.

Lemma silent_raise {A} (e : exn) : silent (@raise exn state A e).
Proof. done. Qed.

Lemma silent_lift {A} (o : outcome A) : silent (lift o).
Proof. done. Qed.

Lemma silent_bind {A B} (m : M A) (k : A -> M B) :
  silent m -> (forall a, silent (k a)) -> silent (bind m k).
Proof.
  intros Hm Hk st. unfold bind. specialize (Hm st).
  destruct (m st) as [[a|e] st']; cbn [snd] in *; [|done].
  by rewrite Hk.
Qed.

Lemma silent_for_each {A} (l : list A) (body : A -> M unit) :
  (forall x, silent (body x)) -> silent (for_each l body).
Proof.
  intros Hbody. induction l as [|x l IH]; [done|].
  apply silent_bind; [apply Hbody | intros _; exact IH].
Qed.

Lemma silent_log (message message2 level : string) : silent (_log message message2 level).
Proof.
  intros st. unfold _log, emit. cbn [snd outside events].
  rewrite rewrites_app. cbn. lia.
Qed.

Lemma silent_set_config_item (key : string) (v : value) :
  silent (set_config_item key v false).
Proof.
  intros st. destruct (key_in (lower key) (dict_keys (self st))) eqn:Hk.
  - by rewrite set_config_item_quiet.
  - rewrite set_config_item_unknown by done. apply silent_log.
Qed.

Lemma silent_set_bulk_config_items (items : value) :
  silent (set_bulk_config_items items false).
Proof.
  apply silent_bind; [done|]. intros ks. apply silent_for_each. intros k.
  apply silent_bind; [apply silent_lift|]. intros [|]; [|apply silent_ret].
  apply silent_bind; [apply silent_lift|]. intros v. apply silent_set_config_item.
Qed.

Lemma silent_import_settings_from_env : silent __import_settings_from_env.
Proof.
  apply silent_bind; [done|]. intros ks. apply silent_for_each. intros k st.
  destruct (environ (outside st) !! k); [apply silent_set_config_item | done].
Qed.

Lemma silent_as_path (v : value) : silent (as_path v).
Proof. by destruct v. Qed.

Lemma silent_as_stat_path (v : value) : silent (as_stat_path v).
Proof. destruct v as [ | |z| | | ]; try done. unfold as_stat_path. by destruct (fits_c_int z). Qed.

Lemma silent_getattr (name : string) : silent (getattr name).
Proof. intros st. unfold getattr. by destruct (dict_get name (self st)). Qed.

Lemma silent_os_makedirs (p : string) : silent (os_makedirs p).
Proof. intros st. unfold os_makedirs. by destruct (makedirs p (files (outside st))). Qed.

Lemma silent_load_settings (settings_file : string) : silent (load_settings settings_file).
Proof.
  intros st. unfold load_settings.
  destruct (files (outside st) !! settings_file) as [[|[v|err]]|]; try done;
    (apply (silent_bind (_log _ _ _) (fun _ => ret (VDict []))); [apply silent_log | done]).
Qed.

Lemma silent_import_settings_from_file (config_path : option string) :
  silent (__import_settings_from_file config_path).
Proof.
  apply silent_bind.
  { destruct (given config_path); [done|].
    apply silent_bind; [apply silent_getattr | apply silent_as_stat_path]. }
  intros cp. apply silent_bind; [done|]. intros there.
  apply silent_bind.
  { destruct there; [done | apply silent_os_makedirs]. }
  intros _. apply silent_bind; [done|]. intros [|]; [|done].
  apply silent_bind; [apply silent_load_settings|]. intros data.
  apply silent_set_bulk_config_items.
Qed.

(** X8.  Constructing the store never rewrites the settings file, not
    even for the overrides the constructor applies, and neither does a
    setter called with save_settings false: whatever else they do,
    including when they raise, no dump is issued. *)
Theorem no_rewrite_without_save (config_path : option string) (kwargs : attrs)
    (key : string) (v items : value) :
  silent (__init__ config_path kwargs) /\
  silent (set_config_item key v false) /\
  silent (set_bulk_config_items items false).
Proof.
  split; [|split; [apply silent_set_config_item | apply silent_set_bulk_config_items]].
  unfold __init__.
  repeat (apply silent_bind; [|intros _]).
  - done.
  - apply silent_import_settings_from_env.
  - apply silent_import_settings_from_file.
  - destruct (given config_path); [apply silent_set_config_item | done].
  - destruct (truthy (kwargs_get "unmanic_path" kwargs)); [|done].
    assert (Hp : forall f (g : string -> value),
               silent (let* p := as_path (kwargs_get "unmanic_path" kwargs) in
                       set_config_item f (g p) false)).
    { intros f g. apply silent_bind; [apply silent_as_path|].
      intros p. apply silent_set_config_item. }
    apply silent_bind; [apply silent_bind; [apply Hp | intros _; apply Hp]
                       | intros _; apply Hp].
  - destruct (truthy (kwargs_get "port" kwargs)); [apply silent_set_config_item | done].
  - apply silent_bind; [done|]. intros d st. unfold emit. cbn [snd outside events].
    rewrite rewrites_app. cbn. lia.
Qed.

(** *** Persisting and reopening *)

Lemma append_not_self (p t : string) : t <> EmptyString -> p +:+ t <> p.
Proof.
  intros Ht E. apply Ht. induction p as [|c p IH]; [done|].
  apply IH. by injection E.
Qed.

Lemma settings_file_not_dir (p : string) : path_join p "settings.json" <> p.
Proof.
  unfold path_join. cbn [starts_with_sep Ascii.eqb Bool.eqb].
  destruct (String.eqb p EmptyString || ends_with_sep p).
  - by apply append_not_self.
  - by apply append_not_self.
Qed.

(** X9.  Round trip: on a host that writes what it is given, a snapshot
    persisted by [__write_settings_to_file] and then read by a new
    [Config] constructed with the same config_path gives every declared
    field the value it had, whatever the environment holds. *)
Theorem persist_then_reopen (st : state) (p : string) :
  faithful ->
  consistent (self st) ->
  dict_get "config_path" (self st) = Some (VStr p) ->
  p <> EmptyString ->
  exists st1 st2,
    __write_settings_to_file st = (Returned tt, st1) /\
    __init__ (Some p) [] st1 = (Returned tt, st2) /\
    forall f, f ∈ declared_fields -> dict_get f (self st2) = dict_get f (self st).
Proof.
  intros [Hmk Hdump] Hc Hp Hne. destruct st as [d w]. cbn [self] in *.
  rewrite write_settings_to_file_eq. unfold written. rewrite Hp.
  assert (Hgiven : given (Some p) = Some p).
  { unfold given. destruct (String.eqb_spec p EmptyString); done. }
  assert (Hready : exists fs1, ready p (files w) = inr fs1 /\ is_Some (fs1 !! p)).
  { unfold ready. destruct (bool_decide (is_Some (files w !! p))) eqn:E.
    - apply bool_decide_eq_true_1 in E. eauto.
    - rewrite Hmk. eexists. split; [done|]. rewrite lookup_insert_eq. eauto. }
  destruct Hready as (fs1 & -> & Hdir). cbv zeta. rewrite Hdump. cbn [success fst snd].
  set (fs2 := <[path_join p "settings.json" := File (Json (VDict d))]> fs1).
  set (st1 := {| self := d;
                 outside := {| files := fs2; environ := environ w;
                               events := events w ++ [Dumped d (path_join p "settings.json")] |} |}).
  destruct (init_runs (Some p) [] st1 fs2 d) as [evs Hinit].
  - unfold config_dir. rewrite Hgiven. unfold ready. cbn [st1 outside files].
    rewrite bool_decide_eq_true_2; [done|].
    unfold fs2. rewrite lookup_insert_ne by apply settings_file_not_dir. done.
  - unfold config_dir. rewrite Hgiven. unfold persisted, fs2.
    by rewrite lookup_insert_eq.
  - reflexivity.
  - exists st1. eexists. split; [reflexivity|]. split; [exact Hinit|].
    intros f Hf. cbn [self]. rewrite constructed_precedence by done.
    unfold precedence, explicit. rewrite Hgiven.
    cbn [kwargs_get dict_get truthy app rev].
    destruct (String.eqb_spec "config_path" f) as [<-|Hf']; [done|].
    destruct (dict_get_key d f) as [v ->]; [by apply Hc | done].
Qed.

(** X10.  A failed write stops [set_bulk_config_items] where it is: the
    first field of the snapshot that the mapping holds is assigned and
    stays assigned, the exception reaches the caller, and the fields that
    come later are not touched. *)
Theorem failed_write_aborts_bulk (items : attrs) (st : state)
    (before after : list string) (k p : string) (v : value) :
  write_protected ->
  consistent (self st) ->
  dict_keys (self st) = before ++ k :: after ->
  (forall k', k' ∈ before -> dict_get k' items = None) ->
  dict_get k items = Some v ->
  dict_get "config_path" (setattr (self st) k v) = Some (VStr p) ->
  exists w',
    set_bulk_config_items (VDict items) true st =
    (Raised (Exception "Exception in writing settings to file"),
     {| self := setattr (self st) k v; outside := w' |}) /\
    rewrites (events w') = S (rewrites (events (outside st))).
Proof.
  intros [Hmk Hdump] Hc Hkeys Hbefore Hk Hp. destruct st as [d w]. cbn [self outside] in *.
  assert (Hin : k ∈ dict_keys d) by (rewrite Hkeys; apply elem_of_app; right; left).
  pose (body := fun config_key : string =>
         let* present := lift (py_contains config_key (VDict items)) in
         if present then
           let* v := lift (py_getitem config_key (VDict items)) in
           set_config_item config_key v true
         else ret tt).
  change (set_bulk_config_items (VDict items) true {| self := d; outside := w |})
    with (for_each (dict_keys d) body {| self := d; outside := w |}).
  rewrite Hkeys. clear Hkeys.
  assert (Hnone : forall k0 s, dict_get k0 items = None -> body k0 s = (Returned tt, s)).
  { intros k0 s Hk0. unfold body, bind, lift. cbn [py_contains].
    by rewrite (proj2 (key_in_false _ _) (proj1 (dict_get_None_key _ _) Hk0)). }
  assert (Hsome : forall s, body k s = set_config_item k v true s).
  { intros s. unfold body, bind, lift. cbn [py_contains py_getitem].
    by rewrite (proj2 (key_in_true _ _) (dict_get_Some_key _ _ _ Hk)), Hk. }
  clearbody body. induction before as [|k0 before IH].
  - cbn [app for_each]. unfold bind at 1. rewrite Hsome.
    rewrite set_config_item_saving
      by (apply key_in_true, (consistent_lower_closed _ Hc), Hin).
    cbn [self outside]. rewrite write_settings_to_file_eq.
    unfold written. rewrite Hp.
    assert (Hready : exists fs1, ready p (files w) = inr fs1).
    { unfold ready. destruct (bool_decide _); eauto. }
    destruct Hready as [fs1 ->]. cbv zeta. rewrite Hdump. cbn [fst snd].
    eexists. split; [reflexivity|]. cbn [events]. rewrite !rewrites_app.
    assert (Hlog : forall l, rewrites (map (Logged "exception" "Exception:") l) = 0%nat).
    { induction l; [done|]. done. }
    rewrite Hlog. cbn. lia.
  - cbn [app for_each]. unfold bind at 1. rewrite Hnone by (apply Hbefore; left).
    apply IH. intros k' Hk'. apply Hbefore. by right.
Qed.

(** X11.  A config_path that is no string cannot be persisted:
    [set_config_item("config_path", v)] with persistence assigns the
    value and raises before anything is dumped, leaving the files as they
    are: [OverflowError] for an integer outside the range of a C [int]
    (which [os.stat] refuses as a file descriptor), [TypeError] for every
    other value. *)
Theorem non_string_config_path (st : state) (v : value) :
  consistent (self st) ->
  (forall s, v <> VStr s) ->
  exists e,
    set_config_item "config_path" v true st =
    (Raised e, {| self := setattr (self st) "config_path" v; outside := outside st |}) /\
    (((exists z, v = VInt z /\ (z < -2147483648 \/ 2147483647 < z)%Z) /\
      e = OverflowError) \/
     ((forall z, v = VInt z -> (-2147483648 <= z <= 2147483647)%Z) /\ e = TypeError)).
Proof.
  intros Hc Hv. destruct st as [d w]. cbn [self outside].
  rewrite set_config_item_saving.
  2:{ apply key_in_true. cbn [self]. apply Hc. apply key_in_true. reflexivity. }
  cbn [self outside]. rewrite write_settings_to_file_eq. unfold written.
  rewrite dict_get_setattr_eq.
  destruct v as [ |b|z|s|l|l]; try (by destruct (Hv s));
    try (exists TypeError; split; [reflexivity|]; right; split; [discriminate | reflexivity]).
  cbn [fst snd]. unfold fits_c_int.
  destruct (Z.leb_spec (-2147483648) z); destruct (Z.leb_spec z 2147483647);
    cbn [andb]; eexists; (split; [reflexivity|]);
    first [ right; split; [intros ? [= <-]; lia | reflexivity]
          | left; split; [exists z; split; [reflexivity | lia] | reflexivity] ].
Qed.

(** X12.  The names [get_config_item] does not treat as it treats a
    declared field: config_as_dict hands back the whole snapshot,
    config_keys its keys, config_item raises [TypeError] (the method
    found wants an argument), and userdata_path, though the snapshot
    holds it, yields [None]. *)
Theorem getter_dispatch_by_name (st : state) :
  consistent (self st) ->
  get_config_item "config_as_dict" st = (Returned (OValue (VDict (self st))), st) /\
  get_config_item "config_keys" st = (Returned (OKeys (dict_keys (self st))), st) /\
  get_config_item "config_item" st = (Raised TypeError, st) /\
  get_config_item "userdata_path" st = (Returned (OValue VNone), st) /\
  is_Some (dict_get "userdata_path" (self st)).
Proof.
  intros Hc. unfold get_config_item.
  rewrite !no_getter_attribute by done.
  repeat split. destruct (dict_get_key (self st) "userdata_path") as [v Hv]; [|eauto].
  apply Hc. apply key_in_true. reflexivity.
Qed.

(** X13.  [__import_settings_from_env] overlays exactly the variables
    whose name is, letter for letter, a key of the snapshot: each such key
    takes the string from the environment, every other key keeps its
    value, no key is added, and nothing outside the snapshot changes. *)
Theorem env_import_by_exact_name (st : state) :
  consistent (self st) ->
  exists st',
    __import_settings_from_env st = (Returned tt, st') /\
    outside st' = outside st /\
    dict_keys (self st') = dict_keys (self st) /\
    forall k, k ∈ dict_keys (self st) ->
      dict_get k (self st') =
      match environ (outside st) !! k with
      | Some s => Some (VStr s)
      | None => dict_get k (self st)
      end.
Proof.
  intros Hc. eexists.
  split; [by apply import_settings_from_env_runs, consistent_lower_closed|].
  cbn [self outside]. split; [done|]. split; [by apply dict_keys_overlay|].
  intros k Hk. rewrite dict_get_overlay_in by (by apply key_in_true).
  by destruct (environ (outside st) !! k).
Qed.

End StoreMore.

(** * Further properties of the contract *)

Section ContractMore.
Context `{Api.Plugins}.
Import Api.

Lemma load_fields_keys (s : schema) (data : attrs) (errs : list (string * messages))
    (loaded : attrs) (k : string) :
  load_fields s data = (errs, loaded) -> k ∈ dict_keys loaded -> k ∈ map name s.
Proof.
  revert errs loaded. induction s as [|f s IH]; intros errs loaded; simpl.
  - intros [= <- <-]. done.
  - destruct (load_fields s data) as [errs' loaded'] eqn:E.
    destruct (load_field f data) as [m|[v|]]; intros [= <- <-]; simpl.
    + intros Hk. right. eauto.
    + intros [->|Hk]%elem_of_cons; [left | right; eauto].
    + intros Hk. right. eauto.
Qed.

(** What [Schema.load] accepts holds, for each declared field, what
    [Field.deserialize] made of it. *)
Lemma load_fields_lookup (s : schema) (data loaded : attrs) (f : field) :
  NoDup (map name s) ->
  load_fields s data = ([], loaded) ->
  f ∈ s ->
  exists o, load_field f data = inr o /\ dict_get (name f) loaded = o.
Proof.
  revert loaded. induction s as [|g s IH]; intros loaded Hnd; simpl.
  - intros _ Hf. by apply elem_of_nil in Hf.
  - apply NoDup_cons in Hnd as [Hg Hnd].
    destruct (load_fields s data) as [errs' loaded'] eqn:E.
    assert (Hfresh : dict_get (name g) loaded' = None).
    { apply dict_get_None_key. intros Hk. apply Hg. eapply load_fields_keys; eauto. }
    destruct (load_field g data) as [m|[v|]] eqn:Eg; [discriminate|..];
      intros [= -> <-]; intros [->|Hf]%elem_of_cons.
    + exists (Some v). split; [done|]. simpl. by rewrite String.eqb_refl.
    + destruct (IH _ Hnd eq_refl Hf) as (o & Ho & Hl). exists o. split; [done|].
      simpl. destruct (String.eqb_spec (name g) (name f)) as [En|_]; [|done].
      exfalso. apply Hg. rewrite En. by apply list_elem_of_fmap_2.
    + exists None. done.
    + by apply IH.
Qed.

Lemma load_accepts (s : schema) (data d : attrs) :
  load s (VDict data) = inr d ->
  load_fields s data = ([], d) /\ unknown_fields s data = [].
Proof.
  unfold load. destruct (load_fields s data) as [errs loaded].
  destruct (errs ++ unknown_fields s data) eqn:E; [|discriminate].
  intros [= <-]. apply app_eq_nil in E as [-> ->]. done.
Qed.

Lemma load_int_field (nm : string) (dflt : Z) (data : attrs) (o : option value) :
  load_field {| name := nm; ftype := Int; required := false;
                load_default := Some (VInt dflt); validate := [] |} data = inr o ->
  exists z, o = Some (VInt z) /\ (dict_get nm data = None -> z = dflt).
Proof.
  unfold load_field. cbn [name ftype required load_default validate].
  destruct (dict_get nm data) as [[ |b|z|s|l|d]|]; cbn [deserialize flat_map];
    try discriminate.
  - intros [= <-]. by exists z.
  - destruct (py_int s) as [z|]; [|discriminate]. intros [= <-]. by exists z.
  - intros [= <-]. by exists dflt.
Qed.

Lemma load_str_field (nm dflt : string) (data : attrs) (o : option value) :
  load_field {| name := nm; ftype := Str; required := false;
                load_default := Some (VStr dflt); validate := [] |} data = inr o ->
  exists t, o = Some (VStr t) /\ (dict_get nm data = None -> t = dflt).
Proof.
  unfold load_field. cbn [name ftype required load_default validate].
  destruct (dict_get nm data) as [[ |b|z|s|l|d]|]; cbn [deserialize flat_map];
    try discriminate.
  - intros [= <-]. by exists s.
  - intros [= <-]. by exists dflt.
Qed.

Lemma load_direction_field (data : attrs) (o : option value) :
  load_field {| name := "order_direction"; ftype := Str; required := false;
                load_default := None; validate := [OneOf ["asc"; "desc"]] |} data = inr o ->
  o = dict_get "order_direction" data /\ o ∈ directions.
Proof.
  unfold load_field, directions. cbn [name ftype required load_default validate].
  destruct (dict_get "order_direction" data) as [[ |b|z|s|l|d]|];
    cbn [deserialize flat_map check app]; try discriminate.
  - destruct (String.eqb_spec s "asc") as [->|Ha].
    { intros [= <-]. split; [done|]. right. left. }
    destruct (String.eqb_spec s "desc") as [->|Hd].
    { intros [= <-]. split; [done|]. right. right. left. }
    unfold key_in. cbn [existsb].
    rewrite (proj2 (String.eqb_neq _ _) Ha), (proj2 (String.eqb_neq _ _) Hd).
    discriminate.
  - intros [= <-]. split; [done|]. left.
Qed.

(** X14.  Whatever a table-request schema (plain, history, pending)
    accepts has an integer [start] and [length], a string [search_value]
    and [order_by], each with the default of its schema when the request
    leaves it out (0, 10, the empty string, and for [order_by] the empty
    string, finish_time or priority), and an [order_direction] that is
    the request's own, asc or desc, or absent: the schema gives it no
    default. *)
Theorem accepted_table_request (s : schema) (order_by : string) (data d : attrs) :
  (s, order_by) ∈ table_schemas ->
  load s (VDict data) = inr d ->
  (exists a, dict_get "start" d = Some (VInt a) /\
             (dict_get "start" data = None -> a = 0)) /\
  (exists b, dict_get "length" d = Some (VInt b) /\
             (dict_get "length" data = None -> b = 10)) /\
  (exists t, dict_get "search_value" d = Some (VStr t) /\
             (dict_get "search_value" data = None -> t = EmptyString)) /\
  (exists o, dict_get "order_by" d = Some (VStr o) /\
             (dict_get "order_by" data = None -> o = order_by)) /\
  dict_get "order_direction" d = dict_get "order_direction" data /\
  dict_get "order_direction" d ∈ directions.
Proof.
  intros Hs Hload. apply load_accepts in Hload as [Hfields _].
  assert (Hshape : s =
    [ {| name := "start"; ftype := Int; required := false;
         load_default := Some (VInt 0); validate := [] |};
      {| name := "length"; ftype := Int; required := false;
         load_default := Some (VInt 10); validate := [] |};
      {| name := "search_value"; ftype := Str; required := false;
         load_default := Some (VStr EmptyString); validate := [] |};
      {| name := "order_by"; ftype := Str; required := false;
         load_default := Some (VStr order_by); validate := [] |};
      {| name := "order_direction"; ftype := Str; required := false;
         load_default := None; validate := [OneOf ["asc"; "desc"]] |} ]).
  { unfold table_schemas in Hs. rewrite !elem_of_cons, elem_of_nil in Hs.
    destruct Hs as [[= -> ->]|[[= -> ->]|[[= -> ->]|[]]]]; reflexivity. }
  assert (Hnd : NoDup (map name s)).
  { rewrite Hshape. cbn [map name]. repeat (apply NoDup_cons; split; [|]);
      rewrite ?not_elem_of_cons; repeat split; try discriminate;
      first [apply not_elem_of_nil | apply NoDup_nil_2]. }
  assert (Hget : forall f, f ∈ s ->
            exists o, load_field f data = inr o /\ dict_get (name f) d = o)
    by (intros f; by apply load_fields_lookup).
  rewrite Hshape in Hget.
  repeat split.
  - edestruct Hget as (o & Ho & Hl); [left|].
    apply load_int_field in Ho as (z & -> & Hz). eauto.
  - edestruct Hget as (o & Ho & Hl); [right; left|].
    apply load_int_field in Ho as (z & -> & Hz). eauto.
  - edestruct Hget as (o & Ho & Hl); [do 2 right; left|].
    apply load_str_field in Ho as (t & -> & Ht). eauto.
  - edestruct Hget as (o & Ho & Hl); [do 3 right; left|].
    apply load_str_field in Ho as (t & -> & Ht). eauto.
  - edestruct Hget as (o & Ho & Hl); [do 4 right; left|].
    apply load_direction_field in Ho as [-> _]. exact Hl.
  - edestruct Hget as (o & Ho & Hl); [do 4 right; left|].
    apply load_direction_field in Ho as [_ Hd]. cbn [name] in Hl. by rewrite Hl.
Qed.




(** X17.  When the helper of the collaborator raises an [Exception] that
    is no [BaseApiError], the endpoint answers a valid request with one
    500-class error envelope whose reason is the text of the exception,
    after the one call it made. *)
Theorem collaborator_exception_is_reported (op : operation) (body : value)
    (trace : option (list string)) (d : attrs) (str : string) :
  load RequestTableUpdateByIdList body = inr d ->
  helper op (get_or "id_list" (VList []) d) = inl (OtherException str) ->
  exists h',
    endpoint op (incoming body trace) = (Returned tt, h') /\
    calls h' = [(op, get_or "id_list" (VList []) d)] /\
    responses h' = [ErrorEnvelope STATUS_ERROR_INTERNAL str [] trace] /\
    status h' = STATUS_ERROR_INTERNAL.
Proof.
  intros Hload Hhelp. destruct (endpoint_mutate op) as [cm ->].
  rewrite (mutate_valid _ _ _ (incoming body trace) d Hload). cbv zeta. rewrite Hhelp.
  eexists. split; [reflexivity|]. by repeat split.
Qed.

(** X18.  When the helper raises a [BaseApiError] on a valid request, the
    first [except] clause takes it: the endpoint logs one line naming its
    method and the error, writes no response, leaves the status as it
    was and returns. *)
Theorem collaborator_api_error_is_only_logged (op : operation) (body : value)
    (trace : option (list string)) (d : attrs) (msg : string) :
  load RequestTableUpdateByIdList body = inr d ->
  helper op (get_or "id_list" (VList []) d) = inl (BaseApiError msg) ->
  exists h',
    endpoint op (incoming body trace) = (Returned tt, h') /\
    calls h' = [(op, get_or "id_list" (VList []) d)] /\
    responses h' = [] /\
    status h' = 200 /\
    app_log h' = ["BaseApiError." +:+ call_method op +:+ ": " +:+ msg].
Proof.
  intros Hload Hhelp.
  assert (Hm : endpoint op = mutate op (call_method op) (failure_reason op))
    by (by destruct op).
  rewrite Hm, (mutate_valid _ _ _ (incoming body trace) d Hload). cbv zeta. rewrite Hhelp.
  eexists. split; [reflexivity|]. by repeat split.
Qed.

End ContractMore.

(** ** The further properties, on concrete hosts *)

Lemma sound_host_faithful (h : string) : @faithful (sound_host h).
Proof. split; reflexivity. Qed.

Lemma readonly_host_write_protected (h : string) : @write_protected (readonly_host h).
Proof. split; simpl; eauto. Qed.

Lemma defaults_when_nothing_overrides_witness :
  exists st,
    @Config.__init__ (sound_host home) None [] (fresh ∅ ∅) = (Returned tt, st) /\
    self st = @Config.defaults (sound_host home) /\
    Config.get_config_item "ui_port" st = (Returned (Config.OValue (VInt 8888)), st).
Proof.
  destruct (@defaults_when_nothing_overrides (sound_host home) (fresh ∅ ∅) made_config_dir)
    as (st & Hinit & Hself & Hport & _).
  - intros f _. reflexivity.
  - vm_compute. reflexivity.
  - vm_compute. reflexivity.
  - exists st. repeat split; [exact Hinit | exact Hself | exact Hport].
Defined.

Lemma snapshot_after_set_config_item_witness :
  self (snd (@Config.set_config_item (readonly_host home) "Debugging" (VBool true) true
               readonly_store)) =
    setattr (self readonly_store) "Debugging" (VBool true) /\
  self (snd (@Config.set_config_item (readonly_host home) "verbose" (VBool true) true
               readonly_store)) =
    self readonly_store.
Proof.
  split.
  - apply (@snapshot_after_set_config_item (readonly_host home) readonly_store "Debugging"
             (VBool true) true).
    reflexivity.
  - apply (@snapshot_after_set_config_item (readonly_host home) readonly_store "verbose"
             (VBool true) true).
    reflexivity.
Defined.

Lemma set_then_get_witness :
  exists st',
    @Config.set_config_item (sound_host home) "ui_port" (VInt 9999) false default_store =
      (Returned tt, st') /\
    Config.get_config_item "ui_port" st' = (Returned (Config.OValue (VInt 9999)), st') /\
    dict_get "debugging" (self st') = Some (VBool false).
Proof.
  destruct (@set_then_get (sound_host home) default_store "ui_port" (VInt 9999))
    as (st' & Hset & _ & Hget & Hother).
  - apply consistent_defaults.
  - apply key_in_true. reflexivity.
  - exists st'. split; [exact Hset|]. split; [by apply Hget|].
    rewrite Hother; [reflexivity | discriminate].
Defined.

Lemma bulk_idempotent_witness :
  exists st',
    @Config.set_bulk_config_items (sound_host home) (VDict two_fields) false default_store =
      (Returned tt, st') /\
    @Config.set_bulk_config_items (sound_host home) (VDict two_fields) false st' =
      (Returned tt, st').
Proof.
  apply (@bulk_idempotent (sound_host home) two_fields default_store).
  apply consistent_defaults.
Defined.

Lemma scalar_settings_file_is_fatal_witness :
  exists st,
    @Config.__init__ (sound_host home) None [] (fresh scalar_files ∅) = (Raised TypeError, st).
Proof.
  apply (@scalar_settings_file_is_fatal (sound_host home) None [] (fresh scalar_files ∅)
           scalar_files (VInt 7)).
  - vm_compute. reflexivity.
  - vm_compute. reflexivity.
  - reflexivity.
Defined.

Lemma unreadable_settings_file_is_skipped_witness :
  let w := {| files := corrupt_files; environ := ∅; events := [] |} in
  let r := @Config.__import_settings_from_file (sound_host home) None
             {| self := @Config.defaults (sound_host home); outside := w |} in
  fst r = Returned tt /\
  self (snd r) = @Config.defaults (sound_host home) /\
  events (outside (snd r)) =
    [Logged "exception" "Exception in reading saved settings from file:"
       "Expecting value: line 1 column 1 (char 0)"].
Proof.
  cbv zeta.
  rewrite (@unreadable_settings_file_is_skipped (sound_host home) None
             (@Config.defaults (sound_host home))
             {| files := corrupt_files; environ := ∅; events := [] |}
             "/home/unmanic/.unmanic/config" corrupt_files
             "Expecting value: line 1 column 1 (char 0)").
  - repeat split.
  - apply consistent_lower_closed, consistent_defaults.
  - right. split; reflexivity.
  - vm_compute. reflexivity.
  - vm_compute. reflexivity.
Defined.

Lemma persist_then_reopen_witness :
  exists st1 st2,
    @Config.__write_settings_to_file (sound_host home) default_store = (Returned tt, st1) /\
    @Config.__init__ (sound_host home) (Some "/home/unmanic/.unmanic/config") [] st1 =
      (Returned tt, st2) /\
    dict_get "ui_port" (self st2) = Some (VInt 8888).
Proof.
  destruct (@persist_then_reopen (sound_host home) default_store
              "/home/unmanic/.unmanic/config")
    as (st1 & st2 & Hwrite & Hinit & Hsame).
  - apply sound_host_faithful.
  - apply consistent_defaults.
  - reflexivity.
  - discriminate.
  - exists st1, st2. split; [exact Hwrite|]. split; [exact Hinit|].
    rewrite Hsame; [reflexivity|]. apply key_in_true. reflexivity.
Defined.

Lemma failed_write_aborts_bulk_witness :
  exists w',
    @Config.set_bulk_config_items (readonly_host home) (VDict later_fields) true
      readonly_store =
    (Raised (Exception "Exception in writing settings to file"),
     {| self := setattr (self readonly_store) "debugging" (VBool true); outside := w' |}) /\
    dict_get "number_of_workers"
      (setattr (self readonly_store) "debugging" (VBool true)) = Some (VInt 1) /\
    rewrites (events w') = 1%nat.
Proof.
  destruct (@failed_write_aborts_bulk (readonly_host home) later_fields readonly_store
              [ "ui_port"; "config_path"; "log_path"; "plugins_path"; "userdata_path" ]
              [ "library_path"; "enable_library_scanner"; "schedule_full_scan_minutes";
                "follow_symlinks"; "run_full_scan_on_start"; "enable_inotify";
                "number_of_workers"; "cache_path" ]
              "debugging" "/home/unmanic/.unmanic/config" (VBool true))
    as (w' & Hrun & Hcount).
  - apply readonly_host_write_protected.
  - apply consistent_defaults.
  - reflexivity.
  - intros k' Hk'.
    repeat (apply elem_of_cons in Hk' as [->|Hk']; [reflexivity|]).
    by apply elem_of_nil in Hk'.
  - reflexivity.
  - reflexivity.
  - exists w'. split; [exact Hrun|]. split; [reflexivity | exact Hcount].
Defined.

Lemma non_string_config_path_witness :
  @Config.set_config_item (sound_host home) "config_path" (VBool true) true default_store =
    (Raised TypeError,
     {| self := setattr (self default_store) "config_path" (VBool true);
        outside := outside default_store |}) /\
  @Config.set_config_item (sound_host home) "config_path" (VInt (2 ^ 64)) true default_store =
    (Raised OverflowError,
     {| self := setattr (self default_store) "config_path" (VInt (2 ^ 64));
        outside := outside default_store |}).
Proof.
  split.
  - destruct (@non_string_config_path (sound_host home) default_store (VBool true))
      as (e & Hrun & [[(z & Hz & _) _] | [_ ->]]).
    + apply consistent_defaults.
    + intros s. discriminate.
    + discriminate Hz.
    + exact Hrun.
  - destruct (@non_string_config_path (sound_host home) default_store (VInt (2 ^ 64)))
      as (e & Hrun & [[_ ->] | [Hz _]]).
    + apply consistent_defaults.
    + intros s. discriminate.
    + exact Hrun.
    + specialize (Hz _ eq_refl). vm_compute in Hz. destruct Hz as [_ Hz]. by destruct Hz.
Defined.

Lemma getter_dispatch_by_name_witness :
  Config.get_config_item "config_item" default_store = (Raised TypeError, default_store) /\
  Config.get_config_item "userdata_path" default_store =
    (Returned (Config.OValue VNone), default_store) /\
  dict_get "userdata_path" (self default_store) =
    Some (VStr "/home/unmanic/.unmanic/userdata").
Proof.
  destruct (getter_dispatch_by_name default_store (@consistent_defaults (sound_host home)))
    as (_ & _ & Hitem & Hpath & _).
  split; [exact Hitem|]. split; [exact Hpath | reflexivity].
Defined.

Lemma env_import_by_exact_name_witness :
  exists st',
    @Config.__import_settings_from_env (sound_host home) port_store = (Returned tt, st') /\
    dict_get "ui_port" (self st') = Some (VStr "9999") /\
    dict_get "number_of_workers" (self st') = Some (VInt 1).
Proof.
  destruct (@env_import_by_exact_name (sound_host home) port_store)
    as (st' & Hrun & _ & _ & Hall).
  - apply consistent_defaults.
  - exists st'. split; [exact Hrun|].
    split; (rewrite Hall; [reflexivity | apply key_in_true; reflexivity]).
Defined.

Lemma accepted_table_request_witness :
  exists d,
    Api.load Api.RequestHistoryTableDataSchema (VDict []) = inr d /\
    dict_get "start" d = Some (VInt 0) /\
    dict_get "order_by" d = Some (VStr "finish_time") /\
    dict_get "order_direction" d = None.
Proof.
  destruct (Api.load Api.RequestHistoryTableDataSchema (VDict [])) as [errs|d] eqn:Hload;
    [vm_compute in Hload; discriminate|].
  destruct (accepted_table_request Api.RequestHistoryTableDataSchema "finish_time" [] d)
    as ((a & Ha & Ha0) & _ & _ & (o & Ho & Ho0) & Hdir & _).
  - right. left.
  - exact Hload.
  - exists d. split; [reflexivity|]. rewrite Ha, Ho, Hdir, Ha0, Ho0 by reflexivity.
    repeat split.
Defined.


Lemma collaborator_exception_is_reported_witness :
  exists h',
    @Api.endpoint raising_plugins Api.Remove (Api.incoming three_ids None) =
      (Returned tt, h') /\
    Api.responses h' =
      [Api.ErrorEnvelope Api.STATUS_ERROR_INTERNAL "database is locked" [] None] /\
    Api.status h' = 500%Z.
Proof.
  destruct (@collaborator_exception_is_reported raising_plugins Api.Remove three_ids None
              [("id_list", VList [VInt 1; VInt 2; VInt 3])] "database is locked")
    as (h' & Hrun & _ & Hresp & Hstatus).
  - reflexivity.
  - reflexivity.
  - exists h'. split; [exact Hrun|]. split; [exact Hresp | exact Hstatus].
Defined.

Lemma collaborator_api_error_is_only_logged_witness :
  exists h',
    @Api.endpoint refusing_plugins Api.Enable (Api.incoming three_ids None) =
      (Returned tt, h') /\
    Api.responses h' = [] /\
    Api.app_log h' = ["BaseApiError.enable_plugins: Plugin table is locked"].
Proof.
  destruct (@collaborator_api_error_is_only_logged refusing_plugins Api.Enable three_ids None
              [("id_list", VList [VInt 1; VInt 2; VInt 3])] "Plugin table is locked")
    as (h' & Hrun & _ & Hresp & _ & Hlog).
  - reflexivity.
  - reflexivity.
  - exists h'. split; [exact Hrun|]. split; [exact Hresp | exact Hlog].
Defined.
